(** * expense-pilot-go: transaction entry form and category manager

    A shallow embedding of
    - [src/components/transactions/AddTransactionForm.tsx]
      (funding-source unifier, category filtering, [handleSubmit]) and
    - [src/components/categories/CategoryManager.tsx]
      (category partition and the suggestion list),
    together with the part of the JavaScript runtime those components call:
    strings as sequences of UTF-16 code units, [String.prototype.replace]
    with a string pattern, and the global [parseFloat] with IEEE 754
    binary64 results. *)

From Stdlib Require Import ZArith NArith QArith String Ascii Floats.SpecFloat.
From stdpp Require Import base option list.

Local Open Scope Z_scope.

(* ===================================================================== *)
(** ** The JavaScript runtime used by the components                      *)
(* ===================================================================== *)

Module JS.

(** A JavaScript string is a finite sequence of UTF-16 code units. *)
Definition code_unit : Type := N.
Definition JSString : Type := list code_unit.

(** Source-text literals are written in the development as UTF-8 byte
    strings; [utf16] decodes them into code units (a four-byte sequence
    becomes a surrogate pair). *)
Fixpoint utf16 (bs : list N) : JSString :=
  match bs with
  | [] => []
  | b0 :: r0 =>
      if (b0 <? 128)%N then b0 :: utf16 r0
      else
        match r0 with
        | [] => []
        | b1 :: r1 =>
            if (b0 <? 224)%N
            then ((b0 - 192) * 64 + (b1 - 128))%N :: utf16 r1
            else
              match r1 with
              | [] => []
              | b2 :: r2 =>
                  if (b0 <? 240)%N
                  then ((b0 - 224) * 4096 + (b1 - 128) * 64 + (b2 - 128))%N
                         :: utf16 r2
                  else
                    match r2 with
                    | [] => []
                    | b3 :: r3 =>
                        let cp := ((b0 - 240) * 262144 + (b1 - 128) * 4096
                                   + (b2 - 128) * 64 + (b3 - 128))%N in
                        let v := (cp - 65536)%N in
                        (55296 + v / 1024)%N :: (56320 + v mod 1024)%N
                          :: utf16 r3
                    end
              end
        end
  end.

Definition lit (s : string) : JSString :=
  utf16 (N_of_ascii <$> list_ascii_of_string s).

(** The code unit of a Basic Latin character. *)
Definition chr (a : ascii) : code_unit := N_of_ascii a.

(** [!s] for a string [s]: only the empty string is falsy. *)
Definition falsy (s : JSString) : bool :=
  match s with [] => true | _ :: _ => false end.

(** [s] without its prefix [pat], when it starts with [pat]. *)
Fixpoint strip_prefix (pat s : JSString) : option JSString :=
  match pat, s with
  | [], _ => Some s
  | _ :: _, [] => None
  | p :: pat', c :: s' => if (p =? c)%N then strip_prefix pat' s' else None
  end.

(** [s.replace(pat, rep)] with a string pattern: the first occurrence of
    [pat] is replaced, later ones are kept. *)
Fixpoint replace (pat rep s : JSString) : JSString :=
  match strip_prefix pat s with
  | Some rest => rep ++ rest
  | None =>
      match s with
      | [] => []
      | c :: s' => c :: replace pat rep s'
      end
  end.

(** *** Numbers: IEEE 754 binary64 *)

Definition number : Type := spec_float.
Definition prec : Z := 53.
Definition emax : Z := 1024.

Definition NaN : number := S754_nan.
Definition zero : number := S754_zero false.

Definition isNaN (x : number) : bool :=
  match x with S754_nan => true | _ => false end.

Definition isFinite (x : number) : bool :=
  match x with
  | S754_zero _ | S754_finite _ _ _ => true
  | S754_infinity _ | S754_nan => false
  end.

(** [x <= y] on numbers; false as soon as one side is NaN. *)
Definition le (x y : number) : bool := SFleb x y.

(** The real value of a finite number. *)
Definition number_value (x : number) : option Q :=
  match x with
  | S754_zero _ => Some 0%Q
  | S754_finite s m e =>
      let v := if (0 <=? e) then (Zpos m * 2 ^ e) # 1
               else Zpos m # Z.to_pos (2 ^ (- e)) in
      Some (Qred (if s then Qopp v else v))
  | _ => None
  end.

(** The Number value of the decimal [m * 10 ^ e10], [m >= 0]: the
    quotient of two integers, rounded once to nearest, ties to even, as
    the engines compute it for numerals of any length. A zero keeps the
    sign of the literal. *)
Definition number_of_decimal (neg : bool) (m e10 : Z) : number :=
  match m with
  | Zpos p =>
      SFdiv prec emax
        (S754_finite neg (Z.to_pos (Zpos p * 10 ^ Z.max e10 0)) 0)
        (S754_finite false (Z.to_pos (10 ^ Z.max (- e10) 0)) 0)
  | _ => S754_zero neg
  end.

(** *** parseFloat (ECMA-262, 19.2.4) *)

(** WhiteSpace and LineTerminator code units, stripped by
    [TrimString(_, start)]. *)
Definition isWhiteSpace (c : code_unit) : bool :=
  bool_decide (c ∈ [9; 10; 11; 12; 13; 32; 160; 5760; 8232; 8233; 8239;
                    8287; 12288; 65279]%N)
  || ((8192 <=? c) && (c <=? 8202))%N.

Fixpoint trimStart (s : JSString) : JSString :=
  match s with
  | c :: s' => if isWhiteSpace c then trimStart s' else s
  | [] => []
  end.

Definition isDigit (c : code_unit) : bool := ((48 <=? c) && (c <=? 57))%N.

(** The longest DecimalDigits prefix and what follows it. *)
Fixpoint span_digits (s : JSString) : JSString * JSString :=
  match s with
  | c :: s' =>
      if isDigit c
      then let '(ds, r) := span_digits s' in (c :: ds, r)
      else ([], s)
  | [] => ([], [])
  end.

Definition digits_value (ds : JSString) : Z :=
  fold_left (fun acc d => 10 * acc + (Z.of_N d - 48)) ds 0.

(** ExponentPart: [e] or [E], an optional sign and at least one digit.
    When the part is absent or incomplete the literal ends before it and
    the exponent is 0. *)
Definition parse_exponent (s : JSString) : Z :=
  match s with
  | c :: s1 =>
      if ((c =? chr "e") || (c =? chr "E"))%N then
        match s1 with
        | c1 :: s2 =>
            if (c1 =? chr "+")%N then digits_value (fst (span_digits s2))
            else if (c1 =? chr "-")%N then - digits_value (fst (span_digits s2))
            else digits_value (fst (span_digits s1))
        | [] => 0
        end
      else 0
  | [] => 0
  end.

(** StrUnsignedDecimalLiteral: [Infinity], or digits with an optional
    fraction, or a fraction alone, each with an optional exponent. *)
Definition parse_unsigned (neg : bool) (s : JSString) : number :=
  match strip_prefix (lit "Infinity") s with
  | Some _ => S754_infinity neg
  | None =>
      let '(ip, r) := span_digits s in
      match r with
      | c :: r' =>
          if (c =? chr ".")%N then
            let '(fp, r'') := span_digits r' in
            match ip, fp with
            | [], [] => NaN
            | _, _ =>
                number_of_decimal neg (digits_value (ip ++ fp))
                  (parse_exponent r'' - Z.of_nat (length fp))
            end
          else
            match ip with
            | [] => NaN
            | _ :: _ => number_of_decimal neg (digits_value ip) (parse_exponent r)
            end
      | [] =>
          match ip with
          | [] => NaN
          | _ :: _ => number_of_decimal neg (digits_value ip) 0
          end
      end
  end.

(** The number denoted by the longest prefix of the trimmed string that
    is a StrDecimalLiteral; NaN when no prefix is one. *)
Definition parseFloat (s : JSString) : number :=
  match trimStart s with
  | c :: s' =>
      if (c =? chr "+")%N then parse_unsigned false s'
      else if (c =? chr "-")%N then parse_unsigned true s'
      else parse_unsigned false (c :: s')
  | [] => NaN
  end.

End JS.

Import JS.

(* ===================================================================== *)
(** ** Data model                                                         *)
(* ===================================================================== *)

(** Enumerations of [integrations/supabase/types.ts]. *)
Inductive account_type := checking | savings | credit_card | wallet | investment.
Inductive transaction_status := pending | completed | cancelled.
Inductive transaction_type := income | expense | transfer.

(** The form's [type] state and the catalog's [transaction_type] have the
    TypeScript type ['income' | 'expense']. *)
Inductive direction := dir_income | dir_expense.

Definition direction_type (d : direction) : transaction_type :=
  match d with dir_income => income | dir_expense => expense end.
Coercion direction_type : direction >-> transaction_type.

#[global] Instance account_type_eq_dec : EqDecision account_type.
Proof. solve_decision. Defined.
#[global] Instance transaction_status_eq_dec : EqDecision transaction_status.
Proof. solve_decision. Defined.
#[global] Instance transaction_type_eq_dec : EqDecision transaction_type.
Proof. solve_decision. Defined.
#[global] Instance direction_eq_dec : EqDecision direction.
Proof. solve_decision. Defined.

(** Rows, with the columns the two components read. *)
Record Account := {
  acc_id : JSString;
  acc_name : JSString;
  acc_type : account_type          (* [account.type] *)
}.

Record CreditCard := {
  card_id : JSString;
  card_name : JSString;
  bank_name : JSString
}.

Record Category := {
  category_id : JSString;
  category_name : JSString;
  category_icon : option JSString;
  category_color : option JSString;
  category_transaction_type : transaction_type
}.

(** An entry of [defaultCategories] ([@/data/defaultCategories]). *)
Record DefaultCategory := {
  default_name : JSString;
  default_icon : JSString;
  default_color : JSString;
  default_transaction_type : direction
}.

(** A browser [File]; the form only reads its name. *)
Record File := { file_name : JSString }.

(** The elements of [allAccounts]. *)
Inductive target_kind := kind_account | kind_credit_card.
Inductive Icon := Building | CreditCardIcon.

Record FundingTarget := {
  target_id : JSString;
  target_name : JSString;
  target_type : target_kind;      (* [type] *)
  accountType : account_type;
  bankName : option JSString;           (* absent on account entries *)
  icon : Icon
}.

(* ===================================================================== *)
(** ** AddTransactionForm: derived lists                                  *)
(* ===================================================================== *)

(** [categories.filter(cat => cat.transaction_type === type)] *)
Definition filteredCategories (categories : list Category) (ty : direction)
  : list Category :=
  filter (fun cat => category_transaction_type cat = ty) categories.

(** [[...accounts.map(...), ...creditCards.map(...)]] *)
Definition allAccounts (accounts : list Account) (creditCards : list CreditCard)
  : list FundingTarget :=
  ((fun account =>
      {| target_id := acc_id account;
         target_name := acc_name account;
         target_type := kind_account;
         accountType := acc_type account;
         bankName := None;
         icon := Building |}) <$> accounts)
  ++
  ((fun card =>
      {| target_id := card_id card;
         target_name := card_name card;
         target_type := kind_credit_card;
         accountType := credit_card;
         bankName := Some (bank_name card);
         icon := CreditCardIcon |}) <$> creditCards).

(* ===================================================================== *)
(** ** CategoryManager: partition and suggestions                         *)
(* ===================================================================== *)

Definition incomeCategories (categories : list Category) : list Category :=
  filter (fun cat => category_transaction_type cat = income) categories.

Definition expenseCategories (categories : list Category) : list Category :=
  filter (fun cat => category_transaction_type cat = expense) categories.

Section Suggestions.

(** [String.prototype.toLowerCase] (the Unicode default case conversion)
    and the static catalog are supplied from outside the two components. *)
Variable toLowerCase : JSString -> JSString.
Variable defaultCategories : list DefaultCategory.

(** [categories.some(existingCat =>
       existingCat.name.toLowerCase() === defaultCat.name.toLowerCase())] *)
Definition name_taken (categories : list Category) (defaultCat : DefaultCategory)
  : Prop :=
  Exists (fun existingCat =>
            toLowerCase (category_name existingCat)
            = toLowerCase (default_name defaultCat)) categories.

(** [defaultCategories.filter(defaultCat => !categories.some(...)).slice(0, 6)] *)
Definition suggestions (categories : list Category) : list DefaultCategory :=
  take 6 (filter (fun defaultCat => ¬ name_taken categories defaultCat)
            defaultCategories).

End Suggestions.

(* ===================================================================== *)
(** ** AddTransactionForm: state, effects and handlers                    *)
(* ===================================================================== *)

(** The component state (the [useState] cells). *)
Record FormState := {
  type : direction;
  amount : JSString;
  description : JSString;
  accountId : JSString;
  categoryId : JSString;
  date : JSString;
  receiptFile : option File;            (* [File | null] *)
  loading : bool
}.

(** The argument of [createTransaction]. *)
Record NewTransaction := {
  tx_type : direction;
  tx_amount : number;
  tx_description : JSString;
  tx_account_id : JSString;
  tx_category_id : JSString;
  tx_date : JSString;
  tx_status : transaction_status;
  tx_receiptFile : option File          (* [File | undefined] *)
}.

(** The value a rejected [createTransaction] throws: an object whose
    [message] may be missing. *)
Record JSError := { message : option JSString }.

Inductive Outcome := Resolved | Rejected (error : JSError).

(** What a handler does to the outside: calls to the store, to [toast], to
    the state setters and to the DOM event, in program order. *)
Inductive Event :=
| PreventDefault
| CreateTransaction (tx : NewTransaction)
| ToastError (msg : JSString)
| ToastSuccess (msg : JSString)
| SetType (v : direction)
| SetAmount (v : JSString)
| SetDescription (v : JSString)
| SetAccountId (v : JSString)
| SetCategoryId (v : JSString)
| SetDate (v : JSString)
| SetReceiptFile (v : option File)
| SetLoading (v : bool).

(** What a handler reads from the outside: how the Transaction Store
    answers a create-call, and [new Date().toISOString().split('T')[0]]. *)
Record World := {
  createTransaction : NewTransaction -> Outcome;
  today : JSString
}.

(** Handlers run in a monad that records the events and carries a thrown
    error to the nearest [catch]. *)
Inductive Completion (A : Type) :=
| Normal (a : A)
| Throw (error : JSError).
Arguments Normal {A} a.
Arguments Throw {A} error.

Definition Handler (A : Type) : Type := World -> list Event * Completion A.

#[global] Instance Handler_ret : MRet Handler :=
  fun A a _ => ([], Normal a).

#[global] Instance Handler_bind : MBind Handler :=
  fun A B k m w =>
    let '(t1, r1) := m w in
    match r1 with
    | Normal a => let '(t2, r2) := k a w in (t1 ++ t2, r2)
    | Throw e => (t1, Throw e)
    end.

Definition emit (e : Event) : Handler () := fun _ => ([e], Normal ()).

Definition await_createTransaction (tx : NewTransaction) : Handler () :=
  fun w =>
    ([CreateTransaction tx],
     match createTransaction w tx with
     | Resolved => Normal ()
     | Rejected e => Throw e
     end).

Definition currentDate : Handler JSString := fun w => ([], Normal (today w)).

(** [try { body } catch (error) { handler } finally { fin }] *)
Definition try_catch_finally {A} (body : Handler A)
    (handler : JSError -> Handler A) (fin : Handler ()) : Handler A :=
  fun w =>
    let '(t1, r1) := body w in
    let '(t2, r2) :=
      match r1 with
      | Normal a => ([], Normal a)
      | Throw e => handler e w
      end in
    let '(t3, r3) := fin w in
    (t1 ++ t2 ++ t3,
     match r3 with
     | Normal _ => r2
     | Throw e => Throw e
     end).

(** [error.message || fallback] *)
Definition message_or (error : JSError) (fallback : JSString) : JSString :=
  match message error with
  | Some m => if falsy m then fallback else m
  | None => fallback
  end.

(** [receiptFile || undefined] *)
Definition or_undefined (f : option File) : option File :=
  match f with Some file => Some file | None => None end.

Definition msg_missing_fields : JSString :=
  lit "Por favor, preencha todos os campos obrigatórios".
Definition msg_invalid_amount : JSString :=
  lit "Valor deve ser um número positivo".
Definition msg_generic_failure : JSString :=
  lit "Erro ao adicionar transação".

(** [`${type === 'income' ? 'Receita' : 'Despesa'} adicionada com sucesso!`] *)
Definition msg_success (ty : direction) : JSString :=
  (if decide (ty = dir_income) then lit "Receita" else lit "Despesa")
  ++ lit " adicionada com sucesso!".

(** [parseFloat(amount.replace(',', '.'))] *)
Definition numericAmountOf (amount : JSString) : number :=
  parseFloat (replace (lit ",") (lit ".") amount).

Definition handleSubmit (st : FormState) : Handler () :=
  emit PreventDefault ;;
  if falsy (amount st) || falsy (description st)
     || falsy (accountId st) || falsy (categoryId st)
  then
    emit (ToastError msg_missing_fields)
  else
    let numericAmount := numericAmountOf (amount st) in
    if isNaN numericAmount || le numericAmount zero
    then
      emit (ToastError msg_invalid_amount)
    else
      emit (SetLoading true) ;;
      try_catch_finally
        (await_createTransaction
           {| tx_type := type st;
              tx_amount := numericAmount;
              tx_description := description st;
              tx_account_id := accountId st;
              tx_category_id := categoryId st;
              tx_date := date st;
              tx_status := completed;
              tx_receiptFile := or_undefined (receiptFile st) |} ;;
         emit (ToastSuccess (msg_success (type st))) ;;
         emit (SetAmount []) ;;
         emit (SetDescription []) ;;
         emit (SetAccountId []) ;;
         emit (SetCategoryId []) ;;
         d ← currentDate ;
         emit (SetDate d) ;;
         emit (SetReceiptFile None))
        (fun error =>
           emit (ToastError (message_or error msg_generic_failure)))
        (emit (SetLoading false)).

(** [<Tabs onValueChange={(value) => setType(value as 'income' | 'expense')}>] *)
Definition onValueChange (value : direction) : Handler () :=
  emit (SetType value).

(** [handleFileChange]: [e.target.files?.[0]], kept when there is one. *)
Definition handleFileChange (files : list File) : Handler () :=
  match head files with
  | Some file => emit (SetReceiptFile (Some file))
  | None => mret ()
  end.

(** The state setters, applied in call order to the component state. *)
Definition apply_event (st : FormState) (e : Event) : FormState :=
  match e with
  | SetType v =>
      {| type := v; amount := amount st; description := description st;
         accountId := accountId st; categoryId := categoryId st;
         date := date st; receiptFile := receiptFile st; loading := loading st |}
  | SetAmount v =>
      {| type := type st; amount := v; description := description st;
         accountId := accountId st; categoryId := categoryId st;
         date := date st; receiptFile := receiptFile st; loading := loading st |}
  | SetDescription v =>
      {| type := type st; amount := amount st; description := v;
         accountId := accountId st; categoryId := categoryId st;
         date := date st; receiptFile := receiptFile st; loading := loading st |}
  | SetAccountId v =>
      {| type := type st; amount := amount st; description := description st;
         accountId := v; categoryId := categoryId st;
         date := date st; receiptFile := receiptFile st; loading := loading st |}
  | SetCategoryId v =>
      {| type := type st; amount := amount st; description := description st;
         accountId := accountId st; categoryId := v;
         date := date st; receiptFile := receiptFile st; loading := loading st |}
  | SetDate v =>
      {| type := type st; amount := amount st; description := description st;
         accountId := accountId st; categoryId := categoryId st;
         date := v; receiptFile := receiptFile st; loading := loading st |}
  | SetReceiptFile v =>
      {| type := type st; amount := amount st; description := description st;
         accountId := accountId st; categoryId := categoryId st;
         date := date st; receiptFile := v; loading := loading st |}
  | SetLoading v =>
      {| type := type st; amount := amount st; description := description st;
         accountId := accountId st; categoryId := categoryId st;
         date := date st; receiptFile := receiptFile st; loading := v |}
  | PreventDefault | CreateTransaction _ | ToastError _ | ToastSuccess _ => st
  end.

Definition apply_events (t : list Event) (st : FormState) : FormState :=
  fold_left apply_event t st.

(** Running a handler on the rendered state: its trace, how it completed,
    and the state of the next render. *)
Definition trace_of {A} (h : Handler A) (w : World) : list Event := fst (h w).
Definition completion_of {A} (h : Handler A) (w : World) : Completion A := snd (h w).
Definition state_after {A} (h : Handler A) (w : World) (st : FormState) : FormState :=
  apply_events (trace_of h w) st.

(** Observations on a trace. *)
Definition create_calls (t : list Event) : list NewTransaction :=
  omap (fun e => match e with CreateTransaction tx => Some tx | _ => None end) t.

Inductive Notification :=
| notify_error (msg : JSString)
| notify_success (msg : JSString).

Definition notifications (t : list Event) : list Notification :=
  omap (fun e => match e with
                 | ToastError m => Some (notify_error m)
                 | ToastSuccess m => Some (notify_success m)
                 | _ => None
                 end) t.

Definition is_setter (e : Event) : bool :=
  match e with
  | SetType _ | SetAmount _ | SetDescription _ | SetAccountId _
  | SetCategoryId _ | SetDate _ | SetReceiptFile _ | SetLoading _ => true
  | PreventDefault | CreateTransaction _ | ToastError _ | ToastSuccess _ => false
  end.

Definition state_updates (t : list Event) : list Event :=
  filter (fun e => is_setter e) t.

(* ===================================================================== *)
(** ** Vocabulary of the statements                                       *)
(* ===================================================================== *)

(** The four required fields are all non-empty. *)
Definition required_filled (st : FormState) : Prop :=
  amount st <> [] /\ description st <> []
  /\ accountId st <> [] /\ categoryId st <> [].

(** The amount check of [handleSubmit] passes. *)
Definition passes_amount_check (n : number) : Prop :=
  isNaN n = false /\ le n zero = false.

(** The object [handleSubmit] passes to [createTransaction]. *)
Definition submitted_transaction (st : FormState) : NewTransaction :=
  {| tx_type := type st;
     tx_amount := numericAmountOf (amount st);
     tx_description := description st;
     tx_account_id := accountId st;
     tx_category_id := categoryId st;
     tx_date := date st;
     tx_status := completed;
     tx_receiptFile := receiptFile st |}.

(** The submission stops at the amount check: one error toast, nothing
    else. *)
Definition rejected_invalid_amount (st : FormState) (w : World) : Prop :=
  handleSubmit st w = ([PreventDefault; ToastError msg_invalid_amount], Normal ()).

(** Two names are equal case-insensitively when they have the same
    lower-case form. *)
Definition same_name_ignoring_case (toLowerCase : JSString -> JSString)
    (a b : JSString) : Prop :=
  toLowerCase a = toLowerCase b.

(** What may follow a digit string without being read as part of the
    numeral: nothing, or a code unit that is no digit, point or exponent
    indicator. *)
Definition ends_numeral (r : JSString) : Prop :=
  match r with
  | [] => True
  | c :: _ => isDigit c = false /\ c <> chr "." /\ c <> chr "e" /\ c <> chr "E"
  end.

(** Lower-casing of the Basic Latin and Latin-1 capital letters. On strings
    whose code units are all below 256 this is what [toLowerCase] does. *)
Definition toLowerCase_latin1 (s : JSString) : JSString :=
  (fun c =>
     if (((65 <=? c) && (c <=? 90))
         || ((192 <=? c) && (c <=? 222) && negb (c =? 215)))%N
     then (c + 32)%N else c) <$> s.

(** The suggestion scenario of the specification: two existing categories
    and a catalog of seven entries, the first of which is taken. *)
Definition sample_category (n : string) (ty : transaction_type) : Category :=
  {| category_id := lit n; category_name := lit n; category_icon := None;
     category_color := None; category_transaction_type := ty |}.

Definition sample_default (n : string) : DefaultCategory :=
  {| default_name := lit n; default_icon := lit "*";
     default_color := lit "#6B7280"; default_transaction_type := dir_expense |}.

Definition sample_existing : list Category :=
  [sample_category "Alimentação" expense; sample_category "Transporte" expense].

Definition sample_catalog : list DefaultCategory :=
  sample_default <$> ["alimentação"; "Lazer"; "Pets"; "Academia"; "Saúde";
                      "Educação"; "Presentes"]%string.

(** Sample inputs: a store that accepts every create-call, one that
    rejects every call with a message, and a filled-in draft. *)
Definition store_accepts : World :=
  {| createTransaction := fun _ => Resolved; today := lit "2024-05-01" |}.

Definition store_rejects : World :=
  {| createTransaction := fun _ => Rejected {| message := Some (lit "network down") |};
     today := lit "2024-05-01" |}.

Definition sample_draft : FormState :=
  {| type := dir_expense;
     amount := lit "10,50";
     description := lit "Almoço";
     accountId := lit "acc-1";
     categoryId := lit "cat-1";
     date := lit "2024-04-30";
     receiptFile := Some {| file_name := lit "nota.pdf" |};
     loading := false |}.

Definition with_amount (st : FormState) (v : JSString) : FormState :=
  apply_event st (SetAmount v).

(* ===================================================================== *)
(** ** AddTransactionForm: initial state, field handlers and rendering    *)
(* ===================================================================== *)

(** The initial values of the [useState] cells; [today] is
    [new Date().toISOString().split('T')[0]] at the first render. *)
Definition initialState (today : JSString) : FormState :=
  {| type := dir_expense;
     amount := [];
     description := [];
     accountId := [];
     categoryId := [];
     date := today;
     receiptFile := None;
     loading := false |}.

(** [onChange={(e) => setAmount(e.target.value)}] and its siblings;
    [<Select onValueChange={setAccountId}>], [<Select onValueChange={setCategoryId}>]. *)
Definition onAmountChange (value : JSString) : Handler () := emit (SetAmount value).
Definition onDescriptionChange (value : JSString) : Handler () :=
  emit (SetDescription value).
Definition onAccountChange (value : JSString) : Handler () := emit (SetAccountId value).
Definition onCategoryChange (value : JSString) : Handler () :=
  emit (SetCategoryId value).
Definition onDateChange (value : JSString) : Handler () := emit (SetDate value).

(** The text after an option's name:
    [account.type === 'credit_card' ? `(Cartão - ${account.bankName})` : '(Conta)'].
    A missing [bankName] would print as [undefined]. *)
Definition optionLabel (account : FundingTarget) : JSString :=
  match target_type account with
  | kind_credit_card =>
      lit "(Cartão - "
      ++ match bankName account with Some b => b | None => lit "undefined" end
      ++ lit ")"
  | kind_account => lit "(Conta)"
  end.

(** The [value] of each [SelectItem] of the category select. *)
Definition categoryOptionValues (categories : list Category) (ty : direction)
  : list JSString :=
  category_id <$> filteredCategories categories ty.

(** The submit button: [disabled={loading}]. *)
Definition submitDisabled (st : FormState) : bool := loading st.

(* ===================================================================== *)
(** ** CategoryManager: state and handlers                                *)
(* ===================================================================== *)

Module Manager.

(** The [newCategory] cell. *)
Record NewCategory := {
  nc_name : JSString;
  nc_icon : JSString;
  nc_color : JSString;
  nc_transaction_type : direction
}.

Record State := {
  showAddForm : bool;
  newCategory : NewCategory
}.

Definition defaultNewCategory : NewCategory :=
  {| nc_name := [];
     nc_icon := lit "📋";
     nc_color := lit "#6B7280";
     nc_transaction_type := dir_expense |}.

Definition initialState : State :=
  {| showAddForm := false; newCategory := defaultNewCategory |}.

(** The effects of the panel's handlers: the DOM event, [toast.success]
    and the two setters, [setNewCategory] being called with a value or
    with an updater of the previous value. *)
Inductive Event :=
| PreventDefault
| ToastSuccess (msg : JSString)
| SetShowAddForm (v : bool)
| SetNewCategory (v : NewCategory)
| UpdateNewCategory (f : NewCategory -> NewCategory).

Definition msg_added : JSString := lit "Categoria adicionada com sucesso!".

(** [handleAddCategory] *)
Definition handleAddCategory : list Event :=
  [PreventDefault;
   ToastSuccess msg_added;
   SetShowAddForm false;
   SetNewCategory {| nc_name := [];
                     nc_icon := lit "📋";
                     nc_color := lit "#6B7280";
                     nc_transaction_type := dir_expense |}].

(** [onClick={() => setShowAddForm(!showAddForm)}] *)
Definition onToggleAddForm (st : State) : list Event :=
  [SetShowAddForm (negb (showAddForm st))].

(** [onClick={() => setShowAddForm(false)}] of the cancel button. *)
Definition onCancel : list Event := [SetShowAddForm false].

(** [setNewCategory(prev => ({ ...prev, name: e.target.value }))] and its
    siblings. *)
Definition onNameChange (value : JSString) : list Event :=
  [UpdateNewCategory (fun prev =>
     {| nc_name := value; nc_icon := nc_icon prev; nc_color := nc_color prev;
        nc_transaction_type := nc_transaction_type prev |})].

Definition onIconChange (value : JSString) : list Event :=
  [UpdateNewCategory (fun prev =>
     {| nc_name := nc_name prev; nc_icon := value; nc_color := nc_color prev;
        nc_transaction_type := nc_transaction_type prev |})].

Definition onColorChange (value : JSString) : list Event :=
  [UpdateNewCategory (fun prev =>
     {| nc_name := nc_name prev; nc_icon := nc_icon prev; nc_color := value;
        nc_transaction_type := nc_transaction_type prev |})].

Definition onTypeChange (value : direction) : list Event :=
  [UpdateNewCategory (fun prev =>
     {| nc_name := nc_name prev; nc_icon := nc_icon prev; nc_color := nc_color prev;
        nc_transaction_type := value |})].

(** The [onClick] of a suggestion button. *)
Definition onSuggestionClick (suggestion : DefaultCategory) : list Event :=
  [SetNewCategory {| nc_name := default_name suggestion;
                     nc_icon := default_icon suggestion;
                     nc_color := default_color suggestion;
                     nc_transaction_type := default_transaction_type suggestion |};
   SetShowAddForm true].

Definition apply_event (st : State) (e : Event) : State :=
  match e with
  | SetShowAddForm v => {| showAddForm := v; newCategory := newCategory st |}
  | SetNewCategory v => {| showAddForm := showAddForm st; newCategory := v |}
  | UpdateNewCategory f =>
      {| showAddForm := showAddForm st; newCategory := f (newCategory st) |}
  | PreventDefault | ToastSuccess _ => st
  end.

Definition apply_events (t : list Event) (st : State) : State :=
  fold_left apply_event t st.

Definition toasts (t : list Event) : list JSString :=
  omap (fun e => match e with ToastSuccess m => Some m | _ => None end) t.

End Manager.

(* ===================================================================== *)
(** ** Vocabulary of the further statements                               *)
(* ===================================================================== *)

#[global] Instance required_filled_dec (st : FormState) : Decision (required_filled st).
Proof. unfold required_filled. apply _. Defined.

#[global] Instance passes_amount_check_dec (n : number) : Decision (passes_amount_check n).
Proof. unfold passes_amount_check. apply _. Defined.

(** A number that is not NaN and has the given sign bit. *)
Definition has_sign (s : bool) (x : number) : Prop :=
  match x with
  | S754_zero s' | S754_infinity s' | S754_finite s' _ _ => s' = s
  | S754_nan => False
  end.

(** A strictly positive number: a positive finite double or [+Infinity]. *)
Definition strictly_positive (x : number) : Prop :=
  match x with
  | S754_finite false _ _ | S754_infinity false => True
  | _ => False
  end.

Definition all_whitespace (s : JSString) : Prop :=
  Forall (fun c => isWhiteSpace c = true) s.

(** The run of [handleSubmit] that stops at the required-field check. *)
Definition rejected_missing_field (st : FormState) (w : World) : Prop :=
  handleSubmit st w = ([PreventDefault; ToastError msg_missing_fields], Normal ()).

(** A store that rejects the first create-call it gets with no message. *)
Definition store_fails_silently : World :=
  {| createTransaction := fun _ => Rejected {| message := None |};
     today := lit "2024-05-01" |}.

Definition sample_accounts : list Account :=
  [ {| acc_id := lit "acc-1"; acc_name := lit "Carteira"; acc_type := wallet |};
    {| acc_id := lit "acc-2"; acc_name := lit "Cartão antigo"; acc_type := credit_card |} ].

Definition sample_cards : list CreditCard :=
  [ {| card_id := lit "card-1"; card_name := lit "Platinum"; bank_name := lit "Banco X" |} ].

Definition sample_categories : list Category :=
  [sample_category "cat-1" expense; sample_category "cat-2" income;
   sample_category "cat-3" transfer].

(* ===================================================================== *)
(** ** Properties of the derived lists                                    *)
(* ===================================================================== *)

Section ListFacts.
Context {A : Type} (P : A -> Prop) `{!forall x, Decision (P x)}.

(** A filter keeps every order-preserving selection of elements that
    satisfy the predicate: it is the largest such selection. *)
Lemma sublist_filter_greatest (l k : list A) :
  l `sublist_of` k -> Forall P l -> l `sublist_of` filter P k.
Proof.
  induction 1 as [|x l k Hlk IH|x l k Hlk IH]; intros Hall.
  - constructor.
  - apply Forall_cons in Hall as [Hx Hl].
    rewrite filter_cons_True by done. constructor. auto.
  - rewrite filter_cons. destruct (decide (P x)); [constructor|]; auto.
Qed.

End ListFacts.

(** C4. The funding-source unifier returns one sequence of length
    [|accounts| + |creditCards|]: first one entry per account, in the
    accounts' order, of kind account and carrying the account's subtype;
    then one entry per credit card, in the cards' order, of kind credit
    card and carrying the card's bank name. Empty inputs give the empty
    sequence. *)
Theorem C4_allAccounts_accounts_then_cards
    (accounts : list Account) (creditCards : list CreditCard) :
  let out := allAccounts accounts creditCards in
  let n := length accounts in
  length out = (length accounts + length creditCards)%nat
  /\ target_id <$> take n out = acc_id <$> accounts
  /\ target_name <$> take n out = acc_name <$> accounts
  /\ target_type <$> take n out = replicate n kind_account
  /\ accountType <$> take n out = acc_type <$> accounts
  /\ target_id <$> drop n out = card_id <$> creditCards
  /\ target_name <$> drop n out = card_name <$> creditCards
  /\ target_type <$> drop n out = replicate (length creditCards) kind_credit_card
  /\ bankName <$> drop n out = (fun card => Some (bank_name card)) <$> creditCards
  /\ allAccounts [] [] = [].
Proof.
  cbv zeta. unfold allAccounts.
  rewrite take_app_length' by (by rewrite length_fmap).
  rewrite drop_app_length' by (by rewrite length_fmap).
  rewrite length_app, !length_fmap, <- !list_fmap_compose.
  repeat split; try done; try lia.
  - induction accounts as [|a l IH]; [done|]. cbn. by rewrite <- IH.
  - induction creditCards as [|c l IH]; [done|]. cbn. by rewrite <- IH.
Qed.

(** C5. For a category collection and a direction [d], category filtering
    returns the categories whose [transaction_type] is [d], all of them and
    no other, in the order of the collection: it is a subsequence of the
    collection, it contains exactly the matching categories, and every
    subsequence of matching categories is a subsequence of it. The income
    and expense lists of the category manager are the same filter at the
    two directions. *)
Theorem C5_filteredCategories_exact (categories : list Category) (d : direction) :
  filteredCategories categories d `sublist_of` categories
  /\ (forall cat, cat ∈ filteredCategories categories d
                  <-> cat ∈ categories /\ category_transaction_type cat = d)
  /\ (forall l, l `sublist_of` categories ->
                Forall (fun cat => category_transaction_type cat = d) l ->
                l `sublist_of` filteredCategories categories d)
  /\ incomeCategories categories = filteredCategories categories dir_income
  /\ expenseCategories categories = filteredCategories categories dir_expense.
Proof.
  unfold filteredCategories. split; [apply sublist_filter|].
  split.
  { intros cat. rewrite list_elem_of_filter. tauto. }
  split; [|done].
  intros l Hl Hall. by apply sublist_filter_greatest.
Qed.

Section SuggestionFacts.
Variable toLowerCase : JSString -> JSString.
Variable defaultCategories : list DefaultCategory.

(** C9. The suggestion list is the first six (or all, if fewer) of the
    unused catalog entries, where the unused entries are, in catalog
    order, exactly the entries whose name is not case-insensitively
    equal to the name of an existing category. *)
Theorem C9_suggestions_first_six_unused (categories : list Category) :
  let unused_entry (d : DefaultCategory) : Prop :=
    forall cat, cat ∈ categories ->
      ~ same_name_ignoring_case toLowerCase (category_name cat) (default_name d) in
  exists unused : list DefaultCategory,
    unused `sublist_of` defaultCategories
    /\ (forall d, d ∈ unused <-> d ∈ defaultCategories /\ unused_entry d)
    /\ (forall l, l `sublist_of` defaultCategories -> Forall unused_entry l ->
                  l `sublist_of` unused)
    /\ suggestions toLowerCase defaultCategories categories = take 6 unused
    /\ length (suggestions toLowerCase defaultCategories categories)
       = Nat.min 6 (length unused)
    /\ (length (suggestions toLowerCase defaultCategories categories) <= 6)%nat.
Proof.
  intros unused_entry.
  assert (Hiff : forall d, ~ name_taken toLowerCase categories d <-> unused_entry d).
  { intros d. unfold name_taken, unused_entry, same_name_ignoring_case.
    rewrite Exists_exists. split.
    - intros Hno cat Hin Heq. apply Hno. by exists cat.
    - intros Hall (cat & Hin & Heq). by apply (Hall cat). }
  exists (filter (fun d => ~ name_taken toLowerCase categories d) defaultCategories).
  split; [apply sublist_filter|].
  split.
  { intros d. rewrite list_elem_of_filter, Hiff. tauto. }
  split.
  { intros l Hl Hall. apply sublist_filter_greatest; [done|].
    eapply Forall_impl; [exact Hall|]. intros d Hd. by apply Hiff. }
  unfold suggestions. split; [done|]. rewrite length_take. split; lia.
Qed.
End SuggestionFacts.


(** The specification's scenario: the taken entry is left out whatever
    its case, the six others are suggested in catalog order; with one more
    unused entry in front, the last one no longer fits. *)
Example suggestions_sample :
  default_name <$> suggestions toLowerCase_latin1 sample_catalog sample_existing
  = lit <$> ["Lazer"; "Pets"; "Academia"; "Saúde"; "Educação"; "Presentes"]%string
  /\ default_name <$> suggestions toLowerCase_latin1
                        (sample_default "Viagem" :: sample_default "TRANSPORTE"
                           :: sample_catalog) sample_existing
     = lit <$> ["Viagem"; "Lazer"; "Pets"; "Academia"; "Saúde"; "Educação"]%string.
Proof. by vm_compute. Qed.

(* ===================================================================== *)
(** ** Properties of [parseFloat]                                         *)
(* ===================================================================== *)

Lemma isDigit_range (c : code_unit) : isDigit c = true <-> (48 <= c <= 57)%N.
Proof. unfold isDigit. rewrite andb_true_iff, !N.leb_le. tauto. Qed.

Lemma isDigit_not_space (c : code_unit) : isDigit c = true -> isWhiteSpace c = false.
Proof.
  intros Hc%isDigit_range. unfold isWhiteSpace.
  apply orb_false_iff. split.
  - apply bool_decide_eq_false. rewrite !elem_of_cons, elem_of_nil. lia.
  - apply andb_false_iff. left. apply N.leb_gt. lia.
Qed.

Lemma span_digits_app (ds r : JSString) :
  Forall (fun c => isDigit c = true) ds ->
  match r with [] => True | c :: _ => isDigit c = false end ->
  span_digits (ds ++ r) = (ds, r).
Proof.
  intros Hds Hr. induction Hds as [|d ds Hd _ IH]; cbn.
  - destruct r as [|c r]; [done|]. cbn. by rewrite Hr.
  - by rewrite Hd, IH.
Qed.

(** A digit string followed by anything that ends the numeral is read as
    the integer the digits denote; what follows is ignored. *)
Lemma parseFloat_digit_prefix (ds r : JSString) :
  ds <> [] -> Forall (fun c => isDigit c = true) ds -> ends_numeral r ->
  parseFloat (ds ++ r) = number_of_decimal false (digits_value ds) 0.
Proof.
  intros Hne Hds Hr.
  destruct ds as [|d ds]; [done|]. clear Hne.
  pose proof (Forall_inv Hds) as Hd. cbn beta in Hd.
  pose proof (proj1 (isDigit_range d) Hd) as Hrange.
  unfold parseFloat. cbn [app trimStart].
  rewrite (isDigit_not_space d Hd).
  replace (d =? chr "+")%N with false by (symmetry; apply N.eqb_neq; cbn; lia).
  replace (d =? chr "-")%N with false by (symmetry; apply N.eqb_neq; cbn; lia).
  unfold parse_unsigned.
  replace (strip_prefix (lit "Infinity") (d :: ds ++ r)) with (@None JSString).
  2:{ change (lit "Infinity") with (73%N :: lit "nfinity"). cbn [strip_prefix].
      replace (73 =? d)%N with false; [done|].
      symmetry. apply N.eqb_neq. lia. }
  change (d :: ds ++ r) with ((d :: ds) ++ r).
  rewrite span_digits_app; [|done|by destruct r as [|c r]; [|destruct Hr]].
  destruct r as [|c r]; [done|].
  destruct Hr as (_ & Hpoint & He & HE).
  apply N.eqb_neq in Hpoint, He, HE. rewrite Hpoint.
  unfold parse_exponent. by rewrite He, HE.
Qed.

(** The amounts of the specification's test list. *)
Example parse_comma_amount :
  numericAmountOf (lit "10,50") = parseFloat (lit "10.50")
  /\ number_value (parseFloat (lit "10.50")) = Some (21 # 2).
Proof. by vm_compute. Qed.

Example parse_rejected_amounts :
  numericAmountOf (lit "0") = S754_zero false
  /\ number_value (numericAmountOf (lit "-5")) = Some (-5 # 1)
  /\ numericAmountOf (lit "abc") = NaN.
Proof. by vm_compute. Qed.

(** Rounding to binary64 decides the check at the ends of the range: a
    positive numeral too small for a double is rejected as 0, one too
    large is accepted as an infinity. *)
Example parse_underflow_overflow :
  numericAmountOf (lit "1e-400") = S754_zero false
  /\ le (numericAmountOf (lit "1e-400")) zero = true
  /\ numericAmountOf (lit "1e999") = S754_infinity false
  /\ le (numericAmountOf (lit "1e999")) zero = false
  /\ numericAmountOf (lit "0.1") = S754_finite false 7205759403792794 (-56)
  /\ numericAmountOf (lit "9007199254740993") = S754_finite false 4503599627370496 1.
Proof. by vm_compute. Qed.

(* ===================================================================== *)
(** ** Properties of the handlers                                         *)
(* ===================================================================== *)

Lemma falsy_false (s : JSString) : falsy s = false <-> s <> [].
Proof. destruct s; cbn; split; congruence. Qed.

Lemma falsy_true (s : JSString) : falsy s = true <-> s = [].
Proof. destruct s; cbn; split; congruence. Qed.

Lemma or_undefined_id (f : option File) : or_undefined f = f.
Proof. by destruct f. Qed.

Lemma required_filled_falsy (st : FormState) :
  required_filled st ->
  falsy (amount st) || falsy (description st)
  || falsy (accountId st) || falsy (categoryId st) = false.
Proof.
  intros (Ha & Hd & Hacc & Hc).
  apply falsy_false in Ha, Hd, Hacc, Hc. by rewrite Ha, Hd, Hacc, Hc.
Qed.

Lemma passes_amount_check_bool (n : number) :
  passes_amount_check n <-> isNaN n || le n zero = false.
Proof.
  unfold passes_amount_check. rewrite orb_false_iff. tauto.
Qed.

Ltac run_handler :=
  unfold handleSubmit, mbind, Handler_bind, try_catch_finally,
    await_createTransaction, currentDate, emit; cbn beta iota.

Lemma handleSubmit_missing (st : FormState) (w : World) :
  ~ required_filled st ->
  handleSubmit st w = ([PreventDefault; ToastError msg_missing_fields], Normal ()).
Proof.
  intros Hno. run_handler.
  destruct (falsy (amount st) || falsy (description st)
            || falsy (accountId st) || falsy (categoryId st)) eqn:E; [done|].
  exfalso. apply Hno.
  repeat (apply orb_false_iff in E as [E ?]).
  unfold required_filled. by rewrite <- !falsy_false.
Qed.

Lemma handleSubmit_invalid (st : FormState) (w : World) :
  required_filled st ->
  ~ passes_amount_check (numericAmountOf (amount st)) ->
  handleSubmit st w = ([PreventDefault; ToastError msg_invalid_amount], Normal ()).
Proof.
  intros Hreq Hbad. run_handler.
  rewrite (required_filled_falsy st Hreq).
  rewrite passes_amount_check_bool in Hbad.
  apply not_false_is_true in Hbad. by rewrite Hbad.
Qed.

Lemma handleSubmit_valid (st : FormState) (w : World) :
  required_filled st ->
  passes_amount_check (numericAmountOf (amount st)) ->
  handleSubmit st w =
    match createTransaction w (submitted_transaction st) with
    | Resolved =>
        ([PreventDefault; SetLoading true;
          CreateTransaction (submitted_transaction st);
          ToastSuccess (msg_success (type st));
          SetAmount []; SetDescription []; SetAccountId []; SetCategoryId [];
          SetDate (today w); SetReceiptFile None; SetLoading false],
         Normal ())
    | Rejected error =>
        ([PreventDefault; SetLoading true;
          CreateTransaction (submitted_transaction st);
          ToastError (message_or error msg_generic_failure);
          SetLoading false],
         Normal ())
    end.
Proof.
  intros Hreq Hok. run_handler.
  rewrite (required_filled_falsy st Hreq).
  apply passes_amount_check_bool in Hok. rewrite Hok.
  unfold submitted_transaction. rewrite or_undefined_id.
  by destruct (createTransaction w _).
Qed.

Lemma create_calls_valid (st : FormState) (w : World) :
  required_filled st ->
  passes_amount_check (numericAmountOf (amount st)) ->
  create_calls (trace_of (handleSubmit st) w) = [submitted_transaction st].
Proof.
  intros Hreq Hok. unfold trace_of.
  rewrite (handleSubmit_valid st w Hreq Hok).
  by destruct (createTransaction w _).
Qed.

Lemma required_filled_with_amount (st : FormState) (v : JSString) :
  v <> [] -> description st <> [] -> accountId st <> [] -> categoryId st <> [] ->
  required_filled (with_amount st v).
Proof. by repeat split. Qed.

Lemma not_passes_amount_check (n : number) :
  ~ passes_amount_check n <-> isNaN n = true \/ le n zero = true.
Proof.
  unfold passes_amount_check. destruct (isNaN n), (le n zero); intuition congruence.
Qed.

(** [replace] with a one-unit pattern touches the first occurrence only. *)
Lemma replace_first_unit (c r : code_unit) (a b : JSString) :
  c ∉ a -> replace [c] [r] (a ++ c :: b) = a ++ r :: b.
Proof.
  induction a as [|x a IH]; intros Hnotin; cbn.
  - by rewrite N.eqb_refl.
  - apply not_elem_of_cons in Hnotin as [Hne Ha].
    destruct (N.eqb_spec c x) as [->|_]; [done|]. f_equal. by apply IH.
Qed.

(** C1. When the four required fields are non-empty and the amount passes
    the amount check, the submit issues exactly one create-call, whatever
    the store answers; it carries the parsed amount, the selected type,
    the description, the account and category ids, the date, the status
    [completed] and the attached file, if any. *)
Theorem C1_valid_submit_issues_one_create (w : World) (st : FormState) :
  required_filled st ->
  passes_amount_check (numericAmountOf (amount st)) ->
  create_calls (trace_of (handleSubmit st) w) =
    [ {| tx_type := type st;
         tx_amount := parseFloat (replace (lit ",") (lit ".") (amount st));
         tx_description := description st;
         tx_account_id := accountId st;
         tx_category_id := categoryId st;
         tx_date := date st;
         tx_status := completed;
         tx_receiptFile := receiptFile st |} ].
Proof.
  intros Hreq Hok. unfold trace_of.
  rewrite (handleSubmit_valid st w Hreq Hok).
  by destruct (createTransaction w _).
Qed.

(** C3. When one of the four required fields is empty the submit shows the
    missing-field error and nothing else happens: the amount is not looked
    at, no create-call is issued, no state setter is called, and the next
    render sees the same state. *)
Theorem C3_missing_field_rejected (w : World) (st : FormState) :
  amount st = [] \/ description st = [] \/ accountId st = [] \/ categoryId st = [] ->
  handleSubmit st w = ([PreventDefault; ToastError msg_missing_fields], Normal ())
  /\ create_calls (trace_of (handleSubmit st) w) = []
  /\ notifications (trace_of (handleSubmit st) w) = [notify_error msg_missing_fields]
  /\ state_updates (trace_of (handleSubmit st) w) = []
  /\ state_after (handleSubmit st) w st = st
  /\ msg_missing_fields <> msg_invalid_amount.
Proof.
  intros Hempty.
  assert (Hrun : handleSubmit st w
                 = ([PreventDefault; ToastError msg_missing_fields], Normal ())).
  { apply handleSubmit_missing. unfold required_filled. tauto. }
  unfold state_after, trace_of. rewrite Hrun.
  repeat split; first [done | by vm_compute].
Qed.

(** C6. After a submit that the store accepts, amount, description,
    account and category are empty, the date is the current date, no file
    is attached and the direction is the one selected before; the only
    notification is the success message of that direction, and the two
    directions have different messages. *)
Theorem C6_success_resets_draft (w : World) (st : FormState) :
  required_filled st ->
  passes_amount_check (numericAmountOf (amount st)) ->
  createTransaction w (submitted_transaction st) = Resolved ->
  let st' := state_after (handleSubmit st) w st in
  amount st' = [] /\ description st' = []
  /\ accountId st' = [] /\ categoryId st' = []
  /\ date st' = today w
  /\ receiptFile st' = None
  /\ type st' = type st
  /\ notifications (trace_of (handleSubmit st) w)
     = [notify_success (msg_success (type st))]
  /\ msg_success dir_income <> msg_success dir_expense.
Proof.
  intros Hreq Hok Hres. unfold state_after, trace_of.
  rewrite (handleSubmit_valid st w Hreq Hok), Hres.
  repeat split; first [done | by vm_compute].
Qed.

(** C7. When the store rejects the create-call, [handleSubmit] completes
    normally (the error does not escape), the only notification is an
    error toast with the error's message if it has a non-empty one and the
    generic message otherwise, and type, amount, description, account,
    category, date and file are what they were before the submit. *)
Theorem C7_failure_keeps_draft (w : World) (st : FormState) (error : JSError) :
  required_filled st ->
  passes_amount_check (numericAmountOf (amount st)) ->
  createTransaction w (submitted_transaction st) = Rejected error ->
  let st' := state_after (handleSubmit st) w st in
  completion_of (handleSubmit st) w = Normal ()
  /\ (exists msg, notifications (trace_of (handleSubmit st) w) = [notify_error msg]
       /\ (forall m, message error = Some m -> m <> [] -> msg = m)
       /\ (message error = None \/ message error = Some [] ->
           msg = msg_generic_failure))
  /\ type st' = type st /\ amount st' = amount st
  /\ description st' = description st
  /\ accountId st' = accountId st /\ categoryId st' = categoryId st
  /\ date st' = date st /\ receiptFile st' = receiptFile st.
Proof.
  intros Hreq Hok Hrej. unfold state_after, trace_of, completion_of.
  rewrite (handleSubmit_valid st w Hreq Hok), Hrej.
  split; [done|]. split; [|done].
  exists (message_or error msg_generic_failure). split; [done|].
  unfold message_or. split.
  - intros m -> Hm. apply falsy_false in Hm. by rewrite Hm.
  - by intros [-> | ->].
Qed.

(** C8. Toggling the direction calls [setType] and nothing else: in the
    next render [type] is the new direction and every other field,
    [categoryId] included, is what it was. A selected category whose
    [transaction_type] is not the new direction stays selected although
    the category options no longer contain it. *)
Theorem C8_toggle_changes_only_type (w : World) (st : FormState) (value : direction) :
  let st' := state_after (onValueChange value) w st in
  trace_of (onValueChange value) w = [SetType value]
  /\ type st' = value
  /\ amount st' = amount st /\ description st' = description st
  /\ accountId st' = accountId st /\ categoryId st' = categoryId st
  /\ date st' = date st /\ receiptFile st' = receiptFile st
  /\ loading st' = loading st
  /\ (forall categories cat,
        cat ∈ categories -> category_id cat = categoryId st ->
        category_transaction_type cat <> value ->
        categoryId st' = category_id cat
        /\ cat ∉ filteredCategories categories (type st')).
Proof.
  cbn. repeat split; try done.
  intros Hin. unfold filteredCategories in Hin.
  apply list_elem_of_filter in Hin as [Hty _]. contradiction.
Qed.

(** C2, as the code has it. With the four required fields non-empty, the
    submit is rejected with the invalid-amount error (and then issues no
    create-call) exactly when the amount, with its first comma turned into
    a point, parses to NaN or to a value [<= 0]. ["10,50"] and ["10.50"]
    are accepted with the value 10.5; ["0"], ["-5"] and ["abc"] are
    rejected. *)
Theorem C2_rejected_iff_NaN_or_not_positive (w : World) (st : FormState) :
  required_filled st ->
  let n := numericAmountOf (amount st) in
  (rejected_invalid_amount st w <-> isNaN n = true \/ le n zero = true)
  /\ (rejected_invalid_amount st w ->
        create_calls (trace_of (handleSubmit st) w) = []
        /\ notifications (trace_of (handleSubmit st) w)
           = [notify_error msg_invalid_amount])
  /\ (forall a, a = lit "10,50" \/ a = lit "10.50" ->
        number_value (numericAmountOf a) = Some (21 # 2)
        /\ create_calls (trace_of (handleSubmit (with_amount st a)) w)
           = [submitted_transaction (with_amount st a)])
  /\ (forall a, a = lit "0" \/ a = lit "-5" \/ a = lit "abc" ->
        rejected_invalid_amount (with_amount st a) w).
Proof.
  intros Hreq n. pose proof Hreq as (_ & Hd & Hacc & Hc).
  split; [|split; [|split]].
  - rewrite <- not_passes_amount_check. split.
    + intros Hrej Hok. unfold rejected_invalid_amount in Hrej.
      rewrite (handleSubmit_valid st w Hreq Hok) in Hrej.
      by destruct (createTransaction w _).
    + intros Hbad. by apply handleSubmit_invalid.
  - unfold rejected_invalid_amount, trace_of. by intros ->.
  - intros a Ha. split.
    + by destruct Ha as [-> | ->]; vm_compute.
    + apply create_calls_valid.
      * apply required_filled_with_amount; try done.
        by destruct Ha as [-> | ->].
      * by destruct Ha as [-> | ->]; vm_compute.
  - intros a Ha. apply handleSubmit_invalid.
    + apply required_filled_with_amount; try done.
      by destruct Ha as [-> | [-> | ->]].
    + apply not_passes_amount_check.
      destruct Ha as [-> | [-> | ->]]; vm_compute; auto.
Qed.

(** C10. The amount check accepts strings that are not decimal numerals
    and submits their numeric prefix: only the first comma becomes a point,
    and [parseFloat] reads the longest numeric prefix. ["10abc"] is
    submitted as 10 and ["1,5,9"] as 1.5. *)
Theorem C10_numeric_prefix_is_submitted (w : World) (st : FormState) :
  description st <> [] -> accountId st <> [] -> categoryId st <> [] ->
  (forall a b, chr "," ∉ a ->
     replace (lit ",") (lit ".") (a ++ lit "," ++ b) = a ++ lit "." ++ b)
  /\ (forall ds r, ds <> [] -> Forall (fun c => isDigit c = true) ds ->
        ends_numeral r -> parseFloat (ds ++ r) = parseFloat ds)
  /\ replace (lit ",") (lit ".") (lit "1,5,9") = lit "1.5,9"
  /\ numericAmountOf (lit "10abc") = parseFloat (lit "10")
  /\ number_value (numericAmountOf (lit "10abc")) = Some (10 # 1)
  /\ numericAmountOf (lit "1,5,9") = parseFloat (lit "1.5")
  /\ number_value (numericAmountOf (lit "1,5,9")) = Some (3 # 2)
  /\ create_calls (trace_of (handleSubmit (with_amount st (lit "10abc"))) w)
     = [ {| tx_type := type st;
            tx_amount := parseFloat (lit "10");
            tx_description := description st;
            tx_account_id := accountId st;
            tx_category_id := categoryId st;
            tx_date := date st;
            tx_status := completed;
            tx_receiptFile := receiptFile st |} ]
  /\ create_calls (trace_of (handleSubmit (with_amount st (lit "1,5,9"))) w)
     = [ {| tx_type := type st;
            tx_amount := parseFloat (lit "1.5");
            tx_description := description st;
            tx_account_id := accountId st;
            tx_category_id := categoryId st;
            tx_date := date st;
            tx_status := completed;
            tx_receiptFile := receiptFile st |} ].
Proof.
  intros Hd Hacc Hc.
  split; [intros a b Ha; by apply (replace_first_unit (chr ",") (chr "."))|].
  split.
  { intros ds r Hne Hds Hr.
    rewrite (parseFloat_digit_prefix ds r Hne Hds Hr).
    rewrite <- (app_nil_r ds) at 2.
    by rewrite (parseFloat_digit_prefix ds [] Hne Hds I). }
  do 5 (split; [by vm_compute|]).
  split.
  - rewrite create_calls_valid.
    + unfold submitted_transaction, with_amount. cbn [apply_event type amount
        description accountId categoryId date receiptFile].
      by repeat (f_equal; try by vm_compute).
    + by apply required_filled_with_amount.
    + by vm_compute.
  - rewrite create_calls_valid.
    + unfold submitted_transaction, with_amount. cbn [apply_event type amount
        description accountId categoryId date receiptFile].
      by repeat (f_equal; try by vm_compute).
    + by apply required_filled_with_amount.
    + by vm_compute.
Qed.

(* ===================================================================== *)
(** ** The statements at sample inputs                                    *)
(* ===================================================================== *)

Lemma sample_draft_filled : required_filled sample_draft.
Proof. by repeat split. Defined.

Lemma sample_draft_amount_ok :
  passes_amount_check (numericAmountOf (amount sample_draft)).
Proof. split; vm_compute; reflexivity. Defined.

(** C1 at the sample draft: one create-call, with amount 10.5 and status
    [completed]. *)
Lemma C1_witness :
  required_filled sample_draft
  /\ passes_amount_check (numericAmountOf (amount sample_draft))
  /\ create_calls (trace_of (handleSubmit sample_draft) store_rejects)
     = [ {| tx_type := dir_expense;
            tx_amount := parseFloat (lit "10.50");
            tx_description := lit "Almoço";
            tx_account_id := lit "acc-1";
            tx_category_id := lit "cat-1";
            tx_date := lit "2024-04-30";
            tx_status := completed;
            tx_receiptFile := Some {| file_name := lit "nota.pdf" |} |} ].
Proof.
  split; [exact sample_draft_filled|].
  split; [exact sample_draft_amount_ok|].
  exact (C1_valid_submit_issues_one_create store_rejects sample_draft
           sample_draft_filled sample_draft_amount_ok).
Defined.

(** C2 at the sample draft, whose amount is ["10,50"]: it is not rejected. *)
Lemma C2_witness :
  required_filled sample_draft
  /\ (rejected_invalid_amount sample_draft store_accepts
      <-> isNaN (numericAmountOf (amount sample_draft)) = true
          \/ le (numericAmountOf (amount sample_draft)) zero = true)
  /\ rejected_invalid_amount (with_amount sample_draft (lit "abc")) store_accepts.
Proof.
  split; [exact sample_draft_filled|].
  destruct (C2_rejected_iff_NaN_or_not_positive store_accepts sample_draft
              sample_draft_filled) as (Hiff & _ & _ & Hrej).
  split; [exact Hiff|]. apply Hrej. right. right. reflexivity.
Defined.

(** C3 at the sample draft with the category cleared. *)
Lemma C3_witness :
  let st := apply_event sample_draft (SetCategoryId []) in
  categoryId st = []
  /\ create_calls (trace_of (handleSubmit st) store_accepts) = []
  /\ notifications (trace_of (handleSubmit st) store_accepts)
     = [notify_error msg_missing_fields]
  /\ state_after (handleSubmit st) store_accepts st = st.
Proof.
  intros st. split; [reflexivity|].
  destruct (C3_missing_field_rejected store_accepts st) as (_ & Hc & Hn & _ & Hs & _).
  - right. right. right. reflexivity.
  - split; [exact Hc|]. split; [exact Hn|exact Hs].
Defined.

(** C6 at the sample draft and an accepting store. *)
Lemma C6_witness :
  required_filled sample_draft
  /\ passes_amount_check (numericAmountOf (amount sample_draft))
  /\ createTransaction store_accepts (submitted_transaction sample_draft) = Resolved
  /\ state_after (handleSubmit sample_draft) store_accepts sample_draft
     = {| type := dir_expense; amount := []; description := [];
          accountId := []; categoryId := []; date := lit "2024-05-01";
          receiptFile := None; loading := false |}
  /\ notifications (trace_of (handleSubmit sample_draft) store_accepts)
     = [notify_success (lit "Despesa adicionada com sucesso!")].
Proof.
  split; [exact sample_draft_filled|].
  split; [exact sample_draft_amount_ok|].
  split; [reflexivity|].
  destruct (C6_success_resets_draft store_accepts sample_draft
              sample_draft_filled sample_draft_amount_ok eq_refl)
    as (_ & _ & _ & _ & _ & _ & _ & Hn & _).
  split; [vm_compute; reflexivity|].
  rewrite Hn. vm_compute. reflexivity.
Defined.

(** C7 at the sample draft and a rejecting store. *)
Lemma C7_witness :
  required_filled sample_draft
  /\ passes_amount_check (numericAmountOf (amount sample_draft))
  /\ createTransaction store_rejects (submitted_transaction sample_draft)
     = Rejected {| message := Some (lit "network down") |}
  /\ completion_of (handleSubmit sample_draft) store_rejects = Normal ()
  /\ amount (state_after (handleSubmit sample_draft) store_rejects sample_draft)
     = lit "10,50"
  /\ categoryId (state_after (handleSubmit sample_draft) store_rejects sample_draft)
     = lit "cat-1".
Proof.
  split; [exact sample_draft_filled|].
  split; [exact sample_draft_amount_ok|].
  split; [reflexivity|].
  destruct (C7_failure_keeps_draft store_rejects sample_draft _
              sample_draft_filled sample_draft_amount_ok eq_refl)
    as (Hc & _ & _ & Ha & _ & _ & Hcat & _).
  split; [exact Hc|]. split; [exact Ha|exact Hcat].
Defined.

(** C10 at the sample draft: ["10abc"] reaches the store as 10. *)
Lemma C10_witness :
  description sample_draft <> [] /\ accountId sample_draft <> []
  /\ categoryId sample_draft <> []
  /\ number_value (numericAmountOf (lit "10abc")) = Some (10 # 1)
  /\ create_calls
       (trace_of (handleSubmit (with_amount sample_draft (lit "10abc"))) store_accepts)
     = [ {| tx_type := dir_expense;
            tx_amount := parseFloat (lit "10");
            tx_description := lit "Almoço";
            tx_account_id := lit "acc-1";
            tx_category_id := lit "cat-1";
            tx_date := lit "2024-04-30";
            tx_status := completed;
            tx_receiptFile := Some {| file_name := lit "nota.pdf" |} |} ].
Proof.
  destruct sample_draft_filled as (_ & Hd & Hacc & Hc).
  split; [exact Hd|]. split; [exact Hacc|]. split; [exact Hc|].
  destruct (C10_numeric_prefix_is_submitted store_accepts sample_draft Hd Hacc Hc)
    as (_ & _ & _ & _ & Hv & _ & _ & Hcall & _).
  split; [exact Hv|exact Hcall].
Defined.

(** C2 as the specification words it fails at the amount ["Infinity"]:
    the string does not parse to a finite number, and yet the submit is
    not rejected; the create-call is issued with an infinite amount. *)
Lemma C2_counterexample_Infinity :
  let st := with_amount sample_draft (lit "Infinity") in
  required_filled st
  /\ isFinite (numericAmountOf (amount st)) = false
  /\ ~ rejected_invalid_amount st store_accepts
  /\ create_calls (trace_of (handleSubmit st) store_accepts)
     = [ {| tx_type := dir_expense;
            tx_amount := S754_infinity false;
            tx_description := lit "Almoço";
            tx_account_id := lit "acc-1";
            tx_category_id := lit "cat-1";
            tx_date := lit "2024-04-30";
            tx_status := completed;
            tx_receiptFile := Some {| file_name := lit "nota.pdf" |} |} ]
  /\ ~ (rejected_invalid_amount st store_accepts
        <-> isFinite (numericAmountOf (amount st)) = false
            \/ le (numericAmountOf (amount st)) zero = true).
Proof.
  intros st.
  assert (Hnot : ~ rejected_invalid_amount st store_accepts).
  { unfold rejected_invalid_amount. vm_compute. discriminate. }
  split; [by repeat split|].
  split; [by vm_compute|].
  split; [exact Hnot|].
  split; [by vm_compute|].
  intros [_ Hback]. apply Hnot, Hback. left. by vm_compute.
Qed.

(* ===================================================================== *)
(** ** Further properties of the amount parsing                          *)
(* ===================================================================== *)

Lemma binary_round_aux_sign (sx : bool) (mx ex : Z) (lx : location) :
  isNaN (binary_round_aux prec emax sx mx ex lx) = true
  \/ has_sign sx (binary_round_aux prec emax sx mx ex lx).
Proof.
  unfold binary_round_aux.
  destruct (shr_fexp prec emax mx ex lx) as [mrs' e'].
  destruct (shr_fexp prec emax _ e' loc_Exact) as [mrs'' e''].
  destruct (shr_m mrs'') as [|m|m]; cbn.
  - by right.
  - destruct (e'' <=? emax - prec); by right.
  - by left.
Qed.

Lemma number_of_decimal_sign (neg : bool) (m e10 : Z) :
  isNaN (number_of_decimal neg m e10) = true
  \/ has_sign neg (number_of_decimal neg m e10).
Proof.
  unfold number_of_decimal. destruct m as [|p|p]; [by right| |by right].
  unfold SFdiv. destruct (SFdiv_core_binary _ _ _ _ _ _) as [[mz ez] lz].
  rewrite xorb_false_r. apply binary_round_aux_sign.
Qed.

Lemma parse_unsigned_sign (neg : bool) (s : JSString) :
  isNaN (parse_unsigned neg s) = true \/ has_sign neg (parse_unsigned neg s).
Proof.
  unfold parse_unsigned.
  destruct (strip_prefix _ s); [by right|].
  destruct (span_digits s) as [ip r].
  destruct r as [|c r'].
  { destruct ip; [by left|apply number_of_decimal_sign]. }
  destruct (c =? chr ".")%N.
  - destruct (span_digits r') as [fp r''].
    destruct ip, fp; first [by left | apply number_of_decimal_sign].
  - destruct ip; [by left|apply number_of_decimal_sign].
Qed.

Lemma negative_sign_fails_check (x : number) :
  isNaN x = true \/ has_sign true x -> ~ passes_amount_check x.
Proof.
  intros [Hnan | Hsign] [Hn Hle].
  - congruence.
  - destruct x as [s|s| |s m e]; cbn in Hsign; try done; subst s; by vm_compute in Hle.
Qed.

Lemma passes_amount_check_positive (x : number) :
  passes_amount_check x <-> strictly_positive x.
Proof.
  unfold passes_amount_check.
  destruct x as [s|[]| |[] m e]; cbn; try (destruct s); vm_compute; intuition congruence.
Qed.

Lemma trimStart_whitespace_app (ws s : JSString) :
  all_whitespace ws -> trimStart (ws ++ s) = trimStart s.
Proof.
  induction 1 as [|c ws Hc _ IH]; [done|]. cbn. by rewrite Hc.
Qed.

Lemma whitespace_not_comma (c : code_unit) :
  isWhiteSpace c = true -> c <> chr ",".
Proof. intros Hc ->. by vm_compute in Hc. Qed.

(** [replace] with a one-unit pattern leaves a prefix without the unit
    alone and works on what follows. *)
Lemma replace_unit_skip (c r : code_unit) (a b : JSString) :
  c ∉ a -> replace [c] [r] (a ++ b) = a ++ replace [c] [r] b.
Proof.
  induction a as [|x a IH]; intros Hnotin; [done|].
  apply not_elem_of_cons in Hnotin as [Hne Ha].
  cbn [app]. rewrite <- (IH Ha).
  change (replace [c] [r] (x :: a ++ b)) with
    (match strip_prefix [c] (x :: a ++ b) with
     | Some rest => [r] ++ rest
     | None => x :: replace [c] [r] (a ++ b)
     end).
  cbn [strip_prefix]. by destruct (N.eqb_spec c x).
Qed.

Lemma replace_unit_absent (c r : code_unit) (s : JSString) :
  c ∉ s -> replace [c] [r] s = s.
Proof.
  intros Hs. rewrite <- (app_nil_r s) at 1.
  rewrite (replace_unit_skip c r s [] Hs). cbn. by rewrite app_nil_r.
Qed.

Lemma all_whitespace_no_comma (ws : JSString) :
  all_whitespace ws -> chr "," ∉ ws.
Proof.
  intros Hws Hin. unfold all_whitespace in Hws. rewrite Forall_forall in Hws.
  by apply (whitespace_not_comma _ (Hws _ Hin)).
Qed.

Lemma parseFloat_skip_whitespace (ws s : JSString) :
  all_whitespace ws -> parseFloat (ws ++ s) = parseFloat s.
Proof. intros Hws. unfold parseFloat. by rewrite trimStart_whitespace_app. Qed.

Lemma numericAmountOf_skip_whitespace (ws s : JSString) :
  all_whitespace ws -> numericAmountOf (ws ++ s) = numericAmountOf s.
Proof.
  intros Hws. unfold numericAmountOf.
  change (lit ",") with [chr ","]. change (lit ".") with [chr "."].
  rewrite replace_unit_skip by (by apply all_whitespace_no_comma).
  by apply parseFloat_skip_whitespace.
Qed.

(** X15. Leading white space in the amount is ignored by the amount
    parsing: the amount with and without it gives the same number, so it
    passes the amount check with it exactly when it does without. *)
Theorem leading_whitespace_ignored (ws s : JSString) :
  all_whitespace ws ->
  parseFloat (ws ++ s) = parseFloat s
  /\ numericAmountOf (ws ++ s) = numericAmountOf s
  /\ (passes_amount_check (numericAmountOf (ws ++ s))
      <-> passes_amount_check (numericAmountOf s)).
Proof.
  intros Hws. split; [by apply parseFloat_skip_whitespace|].
  rewrite (numericAmountOf_skip_whitespace ws s Hws). by split.
Qed.

(** X16. An amount written with a decimal comma and the same amount written
    with a decimal point give the same number, and an amount without a
    comma is parsed as it stands. *)
Theorem comma_and_point_agree (a b : JSString) :
  chr "," ∉ a -> chr "," ∉ b ->
  numericAmountOf (a ++ lit "," ++ b) = parseFloat (a ++ lit "." ++ b)
  /\ numericAmountOf (a ++ lit "." ++ b) = parseFloat (a ++ lit "." ++ b)
  /\ numericAmountOf b = parseFloat b.
Proof.
  intros Ha Hb. unfold numericAmountOf.
  change (lit ",") with [chr ","]. change (lit ".") with [chr "."].
  split; [|split].
  - change ([chr ","] ++ b) with (chr "," :: b).
    by rewrite (replace_first_unit (chr ",") (chr ".") a b Ha).
  - rewrite replace_unit_absent; [done|].
    rewrite !not_elem_of_app. split; [done|]. split; [|done].
    rewrite list_elem_of_singleton. by vm_compute.
  - by rewrite replace_unit_absent.
Qed.

(** X13. An amount whose first unit after leading white space is a minus
    sign never passes the amount check: with the other fields filled in
    the submit is rejected with the invalid-amount error. *)
Theorem minus_sign_is_rejected (w : World) (st : FormState) (ws rest : JSString) :
  amount st = ws ++ chr "-" :: rest ->
  all_whitespace ws ->
  description st <> [] -> accountId st <> [] -> categoryId st <> [] ->
  ~ passes_amount_check (numericAmountOf (amount st))
  /\ rejected_invalid_amount st w.
Proof.
  intros Ham Hws Hd Hacc Hc.
  assert (Hbad : ~ passes_amount_check (numericAmountOf (amount st))).
  { rewrite Ham.
    rewrite (numericAmountOf_skip_whitespace ws (chr "-" :: rest) Hws).
    unfold numericAmountOf.
    change (lit ",") with [chr ","]. change (lit ".") with [chr "."].
    change (chr "-" :: rest) with ([chr "-"] ++ rest).
    rewrite replace_unit_skip
      by (rewrite list_elem_of_singleton; by vm_compute).
    apply negative_sign_fails_check.
    change (parseFloat ([chr "-"] ++ replace [chr ","] [chr "."] rest))
      with (parse_unsigned true (replace [chr ","] [chr "."] rest)).
    apply parse_unsigned_sign. }
  split; [exact Hbad|].
  apply handleSubmit_invalid; [|exact Hbad].
  repeat split; try done. rewrite Ham. by destruct ws.
Qed.

(** X14. An amount made of white space only is not empty, so it passes the
    required-field check, and it parses to NaN: the submit is rejected
    with the invalid-amount error, not the missing-field one. *)
Theorem blank_amount_is_invalid (w : World) (st : FormState) :
  amount st <> [] -> all_whitespace (amount st) ->
  description st <> [] -> accountId st <> [] -> categoryId st <> [] ->
  numericAmountOf (amount st) = NaN
  /\ rejected_invalid_amount st w
  /\ ~ rejected_missing_field st w.
Proof.
  intros Hne Hws Hd Hacc Hc.
  assert (Hnan : numericAmountOf (amount st) = NaN).
  { rewrite <- (app_nil_r (amount st)).
    rewrite (numericAmountOf_skip_whitespace (amount st) [] Hws).
    by vm_compute. }
  assert (Hrej : rejected_invalid_amount st w).
  { apply handleSubmit_invalid; [done|]. rewrite Hnan. by intros [? _]. }
  split; [done|]. split; [done|].
  unfold rejected_missing_field. rewrite Hrej. intros Heq.
  vm_compute in Heq. discriminate Heq.
Qed.

(* ===================================================================== *)
(** ** Further properties of the transaction form                         *)
(* ===================================================================== *)

#[local] Arguments lit : simpl never.
#[local] Arguments msg_missing_fields : simpl never.
#[local] Arguments msg_invalid_amount : simpl never.
#[local] Arguments msg_generic_failure : simpl never.
#[local] Arguments msg_success : simpl never.
#[local] Arguments message_or : simpl never.
#[local] Arguments numericAmountOf : simpl never.
#[local] Arguments submitted_transaction : simpl never.

(** The three ways a submit can go. *)
Lemma handleSubmit_cases (st : FormState) (w : World) :
  (~ required_filled st /\ rejected_missing_field st w)
  \/ (required_filled st /\ ~ passes_amount_check (numericAmountOf (amount st))
      /\ rejected_invalid_amount st w)
  \/ (required_filled st /\ passes_amount_check (numericAmountOf (amount st))
      /\ handleSubmit st w =
         match createTransaction w (submitted_transaction st) with
         | Resolved =>
             ([PreventDefault; SetLoading true;
               CreateTransaction (submitted_transaction st);
               ToastSuccess (msg_success (type st));
               SetAmount []; SetDescription []; SetAccountId []; SetCategoryId [];
               SetDate (today w); SetReceiptFile None; SetLoading false],
              Normal ())
         | Rejected error =>
             ([PreventDefault; SetLoading true;
               CreateTransaction (submitted_transaction st);
               ToastError (message_or error msg_generic_failure);
               SetLoading false],
              Normal ())
         end).
Proof.
  destruct (decide (required_filled st)) as [Hreq | Hreq].
  - destruct (decide (passes_amount_check (numericAmountOf (amount st)))) as [Hok | Hok].
    + right. right. split; [done|]. split; [done|]. by apply handleSubmit_valid.
    + right. left. split; [done|]. split; [done|]. by apply handleSubmit_invalid.
  - left. split; [done|]. by apply handleSubmit_missing.
Qed.

(** [handleSubmit] reads the draft and nothing else of the state. *)
Lemma handleSubmit_ext (st1 st2 : FormState) (w : World) :
  type st1 = type st2 -> amount st1 = amount st2 ->
  description st1 = description st2 ->
  accountId st1 = accountId st2 -> categoryId st1 = categoryId st2 ->
  date st1 = date st2 -> receiptFile st1 = receiptFile st2 ->
  handleSubmit st1 w = handleSubmit st2 w.
Proof.
  destruct st1, st2; cbn. by intros -> -> -> -> -> -> ->.
Qed.

Lemma state_after_resolved (st : FormState) (w : World) :
  required_filled st ->
  passes_amount_check (numericAmountOf (amount st)) ->
  createTransaction w (submitted_transaction st) = Resolved ->
  state_after (handleSubmit st) w st
  = {| type := type st; amount := []; description := []; accountId := [];
       categoryId := []; date := today w; receiptFile := None; loading := false |}.
Proof.
  intros Hreq Hok Hres. unfold state_after, trace_of.
  by rewrite (handleSubmit_valid st w Hreq Hok), Hres.
Qed.

Lemma state_after_rejected (st : FormState) (w : World) (error : JSError) :
  required_filled st ->
  passes_amount_check (numericAmountOf (amount st)) ->
  createTransaction w (submitted_transaction st) = Rejected error ->
  state_after (handleSubmit st) w st
  = {| type := type st; amount := amount st; description := description st;
       accountId := accountId st; categoryId := categoryId st; date := date st;
       receiptFile := receiptFile st; loading := false |}.
Proof.
  intros Hreq Hok Hrej. unfold state_after, trace_of.
  by rewrite (handleSubmit_valid st w Hreq Hok), Hrej.
Qed.


(** X2. The store is called exactly when the four required fields are
    non-empty and the amount passes the check, and then once. When it is
    not called no setter is called either, not even [setLoading]: the
    next render sees the same state, and the one notification is an
    error. *)
Theorem store_called_iff_checks_pass (w : World) (st : FormState) :
  let t := trace_of (handleSubmit st) w in
  (create_calls t <> []
   <-> required_filled st /\ passes_amount_check (numericAmountOf (amount st)))
  /\ (length (create_calls t) <= 1)%nat
  /\ (create_calls t = [] ->
      state_updates t = []
      /\ state_after (handleSubmit st) w st = st
      /\ exists m, notifications t = [notify_error m]).
Proof.
  unfold state_after, trace_of. cbv zeta.
  destruct (handleSubmit_cases st w)
    as [(Hno & Hrun) | [(Hreq & Hbad & Hrun) | (Hreq & Hok & Hrun)]];
    unfold rejected_missing_field, rejected_invalid_amount in Hrun; rewrite !Hrun.
  - cbn. split; [split; [done|by intros [? _]]|]. split; [lia|].
    intros _. split; [done|]. split; [done|]. by eexists.
  - cbn. split; [split; [done|by intros [_ ?]]|]. split; [lia|].
    intros _. split; [done|]. split; [done|]. by eexists.
  - destruct (createTransaction w _) as [|error]; cbn;
      (split; [split; [done|by intros _]|]); (split; [lia|]); done.
Qed.

(** X3. When the checks pass, the create-call sits between
    [setLoading(true)] and [setLoading(false)], which is the last effect
    whether the store accepts or rejects; nothing in between touches
    [loading] or calls the store again, and the next render has the submit
    button enabled. *)
Theorem loading_brackets_the_store_call (w : World) (st : FormState) :
  required_filled st ->
  passes_amount_check (numericAmountOf (amount st)) ->
  exists mid,
    trace_of (handleSubmit st) w
    = [PreventDefault; SetLoading true; CreateTransaction (submitted_transaction st)]
      ++ mid ++ [SetLoading false]
    /\ Forall (fun e => forall b, e <> SetLoading b) mid
    /\ create_calls mid = []
    /\ submitDisabled (state_after (handleSubmit st) w st) = false.
Proof.
  intros Hreq Hok. unfold state_after, trace_of, submitDisabled.
  rewrite (handleSubmit_valid st w Hreq Hok).
  destruct (createTransaction w _) as [|error].
  - exists [ToastSuccess (msg_success (type st));
            SetAmount []; SetDescription []; SetAccountId []; SetCategoryId [];
            SetDate (today w); SetReceiptFile None].
    split; [reflexivity|]. split; [|done]. by repeat constructor.
  - exists [ToastError (message_or error msg_generic_failure)].
    split; [reflexivity|]. split; [|done]. by repeat constructor.
Qed.

(** X4. Every transaction handed to the store has status [completed], the
    direction, description, account, category, date and file of the
    draft, non-empty description, account and category ids, and an amount
    that is strictly positive: a positive finite double or [+Infinity],
    never NaN, zero or negative. *)
Theorem created_transaction_is_checked (w : World) (st : FormState)
    (tx : NewTransaction) :
  tx ∈ create_calls (trace_of (handleSubmit st) w) ->
  tx = submitted_transaction st
  /\ tx_status tx = completed
  /\ tx_type tx = type st
  /\ tx_description tx <> [] /\ tx_account_id tx <> [] /\ tx_category_id tx <> []
  /\ strictly_positive (tx_amount tx).
Proof.
  unfold trace_of.
  destruct (handleSubmit_cases st w)
    as [(_ & Hrun) | [(_ & _ & Hrun) | (Hreq & Hok & Hrun)]];
    unfold rejected_missing_field, rejected_invalid_amount in Hrun; rewrite !Hrun; cbn.
  - by intros ?%elem_of_nil.
  - by intros ?%elem_of_nil.
  - intros Hin.
    assert (tx = submitted_transaction st) as ->.
    { destruct (createTransaction w _); cbn in Hin;
        by apply list_elem_of_singleton in Hin. }
    destruct Hreq as (_ & Hd & Hacc & Hc).
    repeat split; try done. by apply passes_amount_check_positive.
Qed.

(** X5. After a submit that the store accepted, submitting again without
    typing anything is stopped at the required-field check: no second
    create-call goes out, whatever the store would answer. *)
Theorem resubmit_after_success_is_rejected (w w' : World) (st : FormState) :
  required_filled st ->
  passes_amount_check (numericAmountOf (amount st)) ->
  createTransaction w (submitted_transaction st) = Resolved ->
  let st' := state_after (handleSubmit st) w st in
  rejected_missing_field st' w'
  /\ create_calls (trace_of (handleSubmit st') w') = [].
Proof.
  intros Hreq Hok Hres. cbv zeta.
  rewrite (state_after_resolved st w Hreq Hok Hres).
  assert (Hrun : rejected_missing_field
                   {| type := type st; amount := []; description := [];
                      accountId := []; categoryId := []; date := today w;
                      receiptFile := None; loading := false |} w').
  { apply handleSubmit_missing. by intros [? _]. }
  split; [exact Hrun|]. unfold trace_of. by rewrite Hrun.
Qed.

(** X6. After a submit that the store rejected, submitting again without
    typing anything runs exactly as the first submit would have run
    against the new store: the same create-call is issued again. *)
Theorem retry_after_failure_repeats_the_call (w w' : World) (st : FormState)
    (error : JSError) :
  required_filled st ->
  passes_amount_check (numericAmountOf (amount st)) ->
  createTransaction w (submitted_transaction st) = Rejected error ->
  let st' := state_after (handleSubmit st) w st in
  handleSubmit st' w' = handleSubmit st w'
  /\ create_calls (trace_of (handleSubmit st') w') = [submitted_transaction st].
Proof.
  intros Hreq Hok Hrej. cbv zeta.
  rewrite (state_after_rejected st w error Hreq Hok Hrej).
  assert (Hsame : handleSubmit
                    {| type := type st; amount := amount st;
                       description := description st; accountId := accountId st;
                       categoryId := categoryId st; date := date st;
                       receiptFile := receiptFile st; loading := false |} w'
                  = handleSubmit st w') by (by apply handleSubmit_ext).
  split; [exact Hsame|]. unfold trace_of. rewrite Hsame.
  by apply create_calls_valid.
Qed.

(** X7. The freshly mounted form cannot be submitted: it is stopped at the
    required-field check. A submit that the store accepted brings the
    form back to the state of a form mounted on the current date, except
    that the direction stays the selected one. *)
Theorem success_returns_to_the_initial_form (w : World) (st : FormState) :
  required_filled st ->
  passes_amount_check (numericAmountOf (amount st)) ->
  createTransaction w (submitted_transaction st) = Resolved ->
  state_after (handleSubmit st) w st
  = state_after (onValueChange (type st)) w (initialState (today w))
  /\ (forall d w', rejected_missing_field (initialState d) w').
Proof.
  intros Hreq Hok Hres. split.
  - by rewrite (state_after_resolved st w Hreq Hok Hres).
  - intros d w'. apply handleSubmit_missing. by intros [? _].
Qed.

(** X8. Neither the date nor the loading flag is checked by the submit:
    with the required fields filled in and a valid amount, the create-call
    goes out with whatever the date field holds, the empty string
    included, and also while an earlier submit is still loading. *)
Theorem date_and_loading_are_not_checked (w : World) (st : FormState)
    (d : JSString) (b : bool) :
  required_filled st ->
  passes_amount_check (numericAmountOf (amount st)) ->
  create_calls
    (trace_of (handleSubmit (apply_events [SetDate d; SetLoading b] st)) w)
  = [ {| tx_type := type st;
         tx_amount := numericAmountOf (amount st);
         tx_description := description st;
         tx_account_id := accountId st;
         tx_category_id := categoryId st;
         tx_date := d;
         tx_status := completed;
         tx_receiptFile := receiptFile st |} ].
Proof.
  intros Hreq Hok. by rewrite create_calls_valid.
Qed.

(** X9. Choosing no file leaves the state as it is, so a file attached
    earlier stays attached: the file input can replace the attached file
    but never remove it. When several files are chosen the first one is
    attached. Nothing else of the state changes and nothing is notified
    or sent. *)
Theorem file_input_never_detaches (w : World) (st : FormState) (files : list File) :
  let st' := state_after (handleFileChange files) w st in
  (files = [] -> st' = st)
  /\ (forall file rest, files = file :: rest -> receiptFile st' = Some file)
  /\ (receiptFile st <> None -> receiptFile st' <> None)
  /\ type st' = type st /\ amount st' = amount st
  /\ description st' = description st
  /\ accountId st' = accountId st /\ categoryId st' = categoryId st
  /\ date st' = date st /\ loading st' = loading st
  /\ notifications (trace_of (handleFileChange files) w) = []
  /\ create_calls (trace_of (handleFileChange files) w) = [].
Proof.
  destruct files as [|file rest]; cbn.
  - repeat split; try done.
  - repeat split; try done. by intros f r [= -> _].
Qed.

(** X10. Toggling the direction away and back restores the state of the
    form, whatever it was, and with it the category options. *)
Theorem direction_toggle_round_trip (w : World) (st : FormState)
    (value : direction) (categories : list Category) :
  let st1 := state_after (onValueChange value) w st in
  let st2 := state_after (onValueChange (type st)) w st1 in
  st2 = st
  /\ filteredCategories categories (type st2) = filteredCategories categories (type st).
Proof. by destruct st. Qed.

(** X11. A category picked from the options offered for the current
    direction has that direction, and if the form is then submitted the
    transaction handed to the store carries that category's id and a
    direction equal to the category's. *)
Theorem picked_category_matches_direction (w w' : World)
    (categories : list Category) (st : FormState) (cat : Category) :
  cat ∈ filteredCategories categories (type st) ->
  let st' := state_after (onCategoryChange (category_id cat)) w st in
  category_id cat ∈ categoryOptionValues categories (type st)
  /\ categoryId st' = category_id cat
  /\ category_transaction_type cat = type st'
  /\ (forall tx, tx ∈ create_calls (trace_of (handleSubmit st') w') ->
        tx_category_id tx = category_id cat
        /\ category_transaction_type cat = tx_type tx).
Proof.
  intros Hin. cbv zeta.
  assert (Hty : category_transaction_type cat = type st).
  { unfold filteredCategories in Hin. by apply list_elem_of_filter in Hin as [? _]. }
  split; [by apply list_elem_of_fmap_2|].
  split; [done|]. split; [done|].
  intros tx Htx. unfold trace_of in Htx.
  destruct (handleSubmit_cases
              (state_after (onCategoryChange (category_id cat)) w st) w')
    as [(_ & Hrun) | [(_ & _ & Hrun) | (_ & _ & Hrun)]];
    unfold rejected_missing_field, rejected_invalid_amount in Hrun;
    rewrite Hrun in Htx.
  - by apply elem_of_nil in Htx.
  - by apply elem_of_nil in Htx.
  - assert (tx = submitted_transaction
                   (state_after (onCategoryChange (category_id cat)) w st)) as ->.
    { destruct (createTransaction w' _); cbn in Htx;
        by apply list_elem_of_singleton in Htx. }
    done.
Qed.

(** X12. In the account select, every account is labelled [(Conta)], also
    an account whose subtype is [credit_card], and every credit card is
    labelled with its bank name; the labels come in the order of the
    options, accounts first. *)
Theorem option_labels (accounts : list Account) (creditCards : list CreditCard) :
  optionLabel <$> allAccounts accounts creditCards
  = replicate (length accounts) (lit "(Conta)")
    ++ ((fun card => lit "(Cartão - " ++ bank_name card ++ lit ")") <$> creditCards).
Proof.
  unfold allAccounts. rewrite fmap_app, <- !list_fmap_compose. f_equal.
  induction accounts as [|a l IH]; [done|]. cbn [length replicate fmap list_fmap].
  by rewrite <- IH.
Qed.

(* ===================================================================== *)
(** ** Further properties of the category manager                         *)
(* ===================================================================== *)

(** X17. The income list and the expense list of the category manager have
    no category in common, a category of type [transfer] is in neither,
    and every other category is in exactly one of them: the two lists and
    the transfer categories together are as many as the collection, and
    without transfer categories the two lists are a rearrangement of the
    collection. *)
Theorem income_and_expense_lists_partition (categories : list Category) :
  (forall cat, cat ∈ incomeCategories categories ->
               cat ∉ expenseCategories categories)
  /\ (forall cat, category_transaction_type cat = transfer ->
                  (cat ∉ incomeCategories categories)
                  /\ (cat ∉ expenseCategories categories))
  /\ (length (incomeCategories categories) + length (expenseCategories categories)
      + length (filter (fun cat => category_transaction_type cat = transfer)
                  categories)
      = length categories)%nat
  /\ (Forall (fun cat => category_transaction_type cat <> transfer) categories ->
      incomeCategories categories ++ expenseCategories categories ≡ₚ categories).
Proof.
  unfold incomeCategories, expenseCategories.
  split; [|split; [|split]].
  - intros cat [Hi _]%list_elem_of_filter [He _]%list_elem_of_filter. congruence.
  - intros cat Ht. split; intros [H _]%list_elem_of_filter; congruence.
  - induction categories as [|c l IH]; [done|].
    rewrite !filter_cons.
    destruct (category_transaction_type c) eqn:E;
      repeat case_decide; try congruence; cbn [length]; lia.
  - induction 1 as [|c l Hc _ IH]; [done|].
    rewrite !filter_cons.
    destruct (category_transaction_type c) eqn:E;
      repeat case_decide; try congruence.
    + cbn. by rewrite IH.
    + rewrite <- Permutation_middle. by rewrite IH.
Qed.

Section ManagerFacts.
Variable toLowerCase : JSString -> JSString.
Variable defaultCategories : list DefaultCategory.

(** X18. Clicking a suggestion opens the creation form filled with the
    suggestion's name, icon, colour and direction, and shows no toast;
    the name put in the form is not the name of any existing category,
    whatever the case of the letters. *)
Theorem suggestion_click_prefills_unused_name (categories : list Category)
    (st : Manager.State) (d : DefaultCategory) :
  d ∈ suggestions toLowerCase defaultCategories categories ->
  let st' := Manager.apply_events (Manager.onSuggestionClick d) st in
  d ∈ defaultCategories
  /\ Manager.showAddForm st' = true
  /\ Manager.nc_name (Manager.newCategory st') = default_name d
  /\ Manager.nc_icon (Manager.newCategory st') = default_icon d
  /\ Manager.nc_color (Manager.newCategory st') = default_color d
  /\ Manager.nc_transaction_type (Manager.newCategory st') = default_transaction_type d
  /\ Manager.toasts (Manager.onSuggestionClick d) = []
  /\ (forall cat, cat ∈ categories ->
        toLowerCase (category_name cat)
        <> toLowerCase (Manager.nc_name (Manager.newCategory st'))).
Proof.
  intros Hin. cbv zeta. unfold suggestions in Hin.
  apply (subseteq_take 6), list_elem_of_filter in Hin as [Hfree Hcat].
  repeat split; try done.
  intros cat Hc Heq. apply Hfree. unfold name_taken.
  apply Exists_exists. by exists cat.
Qed.

(** X19. An entry is never suggested once a category with its name exists,
    whatever the case of the letters; with no categories at all the first
    six catalog entries are suggested, with an empty catalog or with every
    catalog name taken nothing is, and a catalog without repeated entries
    gives suggestions without repeated entries. *)
Theorem suggestions_edge_cases (categories : list Category) :
  (forall cat d, cat ∈ categories ->
      toLowerCase (category_name cat) = toLowerCase (default_name d) ->
      d ∉ suggestions toLowerCase defaultCategories categories)
  /\ suggestions toLowerCase defaultCategories [] = take 6 defaultCategories
  /\ suggestions toLowerCase [] categories = []
  /\ (Forall (fun d => name_taken toLowerCase categories d) defaultCategories ->
      suggestions toLowerCase defaultCategories categories = [])
  /\ (NoDup defaultCategories ->
      NoDup (suggestions toLowerCase defaultCategories categories)).
Proof.
  unfold suggestions. split; [|split; [|split; [|split]]].
  - intros cat d Hc Heq Hin.
    apply (subseteq_take 6), list_elem_of_filter in Hin as [Hfree _].
    apply Hfree, Exists_exists. by exists cat.
  - f_equal. induction defaultCategories as [|d l IH]; [done|].
    rewrite filter_cons_True; [by rewrite IH|].
    unfold name_taken. by intros ?%Exists_nil.
  - done.
  - intros Hall. induction Hall as [|d l Hd _ IH]; [done|].
    by rewrite filter_cons_False by (by intros ?).
  - intros Hnd. eapply sublist_NoDup; [|apply sublist_take].
    by apply NoDup_filter.
Qed.

End ManagerFacts.

(** X20. Submitting the creation form ends in the initial state of the
    panel, whatever was typed, picked or toggled before: the form is
    closed, the entered name, icon, colour and direction are replaced by
    the defaults, and the only effect besides is one success toast. *)
Theorem add_category_discards_the_draft (earlier : list Manager.Event)
    (st : Manager.State) :
  Manager.apply_events (earlier ++ Manager.handleAddCategory) st
  = Manager.initialState
  /\ Manager.toasts Manager.handleAddCategory = [Manager.msg_added]
  /\ Manager.defaultNewCategory
     = {| Manager.nc_name := [];
          Manager.nc_icon := [55357; 56523]%N;
          Manager.nc_color := lit "#6B7280";
          Manager.nc_transaction_type := dir_expense |}.
Proof.
  unfold Manager.apply_events. rewrite fold_left_app.
  split; [done|]. split; [done|]. by vm_compute.
Qed.

(** X21. Closing the creation form, with Cancel or with the toggle button,
    keeps what was entered, so reopening it shows the same draft; the
    toggle button pressed twice restores the state of the panel, and
    editing one field of the draft leaves the three others and the
    visibility of the form alone. *)
Theorem closing_the_form_keeps_the_draft (st : Manager.State) (v : JSString) :
  Manager.newCategory (Manager.apply_events Manager.onCancel st)
  = Manager.newCategory st
  /\ Manager.showAddForm (Manager.apply_events Manager.onCancel st) = false
  /\ (let st1 := Manager.apply_events (Manager.onToggleAddForm st) st in
      Manager.showAddForm st1 = negb (Manager.showAddForm st)
      /\ Manager.newCategory st1 = Manager.newCategory st
      /\ Manager.apply_events (Manager.onToggleAddForm st1) st1 = st)
  /\ (let st2 := Manager.apply_events (Manager.onNameChange v) st in
      Manager.nc_name (Manager.newCategory st2) = v
      /\ Manager.nc_icon (Manager.newCategory st2)
         = Manager.nc_icon (Manager.newCategory st)
      /\ Manager.nc_color (Manager.newCategory st2)
         = Manager.nc_color (Manager.newCategory st)
      /\ Manager.nc_transaction_type (Manager.newCategory st2)
         = Manager.nc_transaction_type (Manager.newCategory st)
      /\ Manager.showAddForm st2 = Manager.showAddForm st).
Proof.
  destruct st as [[] nc]; by repeat split.
Qed.

(* ===================================================================== *)
(** ** The further statements at sample inputs                            *)
(* ===================================================================== *)

Lemma two_spaces_are_whitespace : all_whitespace (lit "  ").
Proof. repeat constructor. Defined.

Lemma leading_whitespace_ignored_witness :
  all_whitespace (lit "  ")
  /\ numericAmountOf (lit "  " ++ lit "7,25") = numericAmountOf (lit "7,25").
Proof.
  split; [exact two_spaces_are_whitespace|].
  exact (proj1 (proj2 (leading_whitespace_ignored (lit "  ") (lit "7,25")
                         two_spaces_are_whitespace))).
Defined.

Lemma no_comma_in_10 : chr "," ∉ lit "10".
Proof. vm_compute. intros H. repeat (inversion H as [|? ? ? H']; clear H; rename H' into H). Defined.

Lemma no_comma_in_50 : chr "," ∉ lit "50".
Proof. vm_compute. intros H. repeat (inversion H as [|? ? ? H']; clear H; rename H' into H). Defined.

Lemma comma_and_point_agree_witness :
(chr "," ∉ lit "10") /\ (chr "," ∉ lit "50")
  /\ numericAmountOf (lit "10" ++ lit "," ++ lit "50")
     = parseFloat (lit "10" ++ lit "." ++ lit "50").
Proof.
  split; [exact no_comma_in_10|]. split; [exact no_comma_in_50|].
  exact (proj1 (comma_and_point_agree (lit "10") (lit "50")
                  no_comma_in_10 no_comma_in_50)).
Defined.

Lemma minus_sign_is_rejected_witness :
  let st := with_amount sample_draft (lit "  -5") in
  amount st = lit "  " ++ chr "-" :: lit "5"
  /\ all_whitespace (lit "  ")
  /\ rejected_invalid_amount st store_accepts.
Proof.
  intros st. destruct sample_draft_filled as (_ & Hd & Hacc & Hc).
  split; [reflexivity|]. split; [exact two_spaces_are_whitespace|].
  exact (proj2 (minus_sign_is_rejected store_accepts st (lit "  ") (lit "5")
                  eq_refl two_spaces_are_whitespace Hd Hacc Hc)).
Defined.

Lemma blank_amount_is_invalid_witness :
  let st := with_amount sample_draft (lit "  ") in
  amount st <> [] /\ all_whitespace (amount st)
  /\ rejected_invalid_amount st store_accepts.
Proof.
  intros st. destruct sample_draft_filled as (_ & Hd & Hacc & Hc).
  assert (Hne : amount st <> []) by discriminate.
  split; [exact Hne|]. split; [exact two_spaces_are_whitespace|].
  exact (proj1 (proj2 (blank_amount_is_invalid store_accepts st Hne
                         two_spaces_are_whitespace Hd Hacc Hc))).
Defined.

Lemma loading_brackets_the_store_call_witness :
  required_filled sample_draft
  /\ passes_amount_check (numericAmountOf (amount sample_draft))
  /\ exists mid,
       trace_of (handleSubmit sample_draft) store_rejects
       = [PreventDefault; SetLoading true;
          CreateTransaction (submitted_transaction sample_draft)]
         ++ mid ++ [SetLoading false].
Proof.
  split; [exact sample_draft_filled|]. split; [exact sample_draft_amount_ok|].
  destruct (loading_brackets_the_store_call store_rejects sample_draft
              sample_draft_filled sample_draft_amount_ok) as (mid & Hmid & _).
  exists mid. exact Hmid.
Defined.

Lemma sample_call_issued :
  submitted_transaction sample_draft
  ∈ create_calls (trace_of (handleSubmit sample_draft) store_accepts).
Proof. vm_compute. constructor. Defined.

Lemma created_transaction_is_checked_witness :
  submitted_transaction sample_draft
  ∈ create_calls (trace_of (handleSubmit sample_draft) store_accepts)
  /\ strictly_positive (tx_amount (submitted_transaction sample_draft)).
Proof.
  split; [exact sample_call_issued|].
  destruct (created_transaction_is_checked store_accepts sample_draft _
              sample_call_issued) as (_ & _ & _ & _ & _ & _ & Hpos).
  exact Hpos.
Defined.

Lemma resubmit_after_success_is_rejected_witness :
  required_filled sample_draft
  /\ passes_amount_check (numericAmountOf (amount sample_draft))
  /\ createTransaction store_accepts (submitted_transaction sample_draft) = Resolved
  /\ create_calls
       (trace_of (handleSubmit
                    (state_after (handleSubmit sample_draft) store_accepts sample_draft))
          store_accepts) = [].
Proof.
  split; [exact sample_draft_filled|]. split; [exact sample_draft_amount_ok|].
  split; [reflexivity|].
  exact (proj2 (resubmit_after_success_is_rejected store_accepts store_accepts
                  sample_draft sample_draft_filled sample_draft_amount_ok eq_refl)).
Defined.

Lemma retry_after_failure_repeats_the_call_witness :
  required_filled sample_draft
  /\ passes_amount_check (numericAmountOf (amount sample_draft))
  /\ createTransaction store_fails_silently (submitted_transaction sample_draft)
     = Rejected {| message := None |}
  /\ create_calls
       (trace_of (handleSubmit
                    (state_after (handleSubmit sample_draft) store_fails_silently
                       sample_draft))
          store_accepts) = [submitted_transaction sample_draft].
Proof.
  split; [exact sample_draft_filled|]. split; [exact sample_draft_amount_ok|].
  split; [reflexivity|].
  exact (proj2 (retry_after_failure_repeats_the_call store_fails_silently
                  store_accepts sample_draft _ sample_draft_filled
                  sample_draft_amount_ok eq_refl)).
Defined.

Lemma success_returns_to_the_initial_form_witness :
  required_filled sample_draft
  /\ passes_amount_check (numericAmountOf (amount sample_draft))
  /\ createTransaction store_accepts (submitted_transaction sample_draft) = Resolved
  /\ state_after (handleSubmit sample_draft) store_accepts sample_draft
     = initialState (lit "2024-05-01").
Proof.
  split; [exact sample_draft_filled|]. split; [exact sample_draft_amount_ok|].
  split; [reflexivity|].
  exact (proj1 (success_returns_to_the_initial_form store_accepts sample_draft
                  sample_draft_filled sample_draft_amount_ok eq_refl)).
Defined.

Lemma date_and_loading_are_not_checked_witness :
  required_filled sample_draft
  /\ passes_amount_check (numericAmountOf (amount sample_draft))
  /\ tx_date <$> create_calls
       (trace_of (handleSubmit
                    (apply_events [SetDate []; SetLoading true] sample_draft))
          store_accepts) = [[]].
Proof.
  split; [exact sample_draft_filled|]. split; [exact sample_draft_amount_ok|].
  rewrite (date_and_loading_are_not_checked store_accepts sample_draft [] true
             sample_draft_filled sample_draft_amount_ok).
  reflexivity.
Defined.

Lemma sample_option_offered :
  sample_category "cat-1" expense
  ∈ filteredCategories sample_categories (type sample_draft).
Proof. vm_compute. constructor. Defined.

Lemma picked_category_matches_direction_witness :
  sample_category "cat-1" expense
  ∈ filteredCategories sample_categories (type sample_draft)
  /\ categoryId (state_after (onCategoryChange (lit "cat-1")) store_accepts
                   sample_draft) = lit "cat-1".
Proof.
  split; [exact sample_option_offered|].
  destruct (picked_category_matches_direction store_accepts store_accepts
              sample_categories sample_draft _ sample_option_offered)
    as (_ & Hid & _).
  exact Hid.
Defined.

Lemma sample_suggestion_offered :
  sample_default "Lazer"
  ∈ suggestions toLowerCase_latin1 sample_catalog sample_existing.
Proof. vm_compute. constructor. Defined.

Lemma suggestion_click_prefills_unused_name_witness :
  sample_default "Lazer"
  ∈ suggestions toLowerCase_latin1 sample_catalog sample_existing
  /\ Manager.nc_name
       (Manager.newCategory
          (Manager.apply_events (Manager.onSuggestionClick (sample_default "Lazer"))
             Manager.initialState)) = lit "Lazer".
Proof.
  split; [exact sample_suggestion_offered|].
  destruct (suggestion_click_prefills_unused_name toLowerCase_latin1 sample_catalog
              sample_existing Manager.initialState _ sample_suggestion_offered)
    as (_ & _ & Hname & _).
  exact Hname.
Defined.
